(** * Fall-detection server: event ingestion, dual-backend storage, alerting

    A shallow embedding of [src/flask/app.py].  The handlers are embedded as
    functions in a state-and-exception monad over a [world] that holds what
    the Python process shares between requests: the two availability flags
    fixed at import time, the CSV file, the MongoDB collection, and a log of
    the external effects performed so far.  What the outside world answers
    during one request (clock readings, the SMS provider, the database
    driver) is passed in as a record of [replies]. *)

From Stdlib Require Import ZArith Ascii String List Lia.
From stdpp Require Import base option list strings pretty gmap sorting.

Local Open Scope string_scope.
Local Open Scope Z_scope.
Local Open Scope list_scope.

(** ** Python values

    The payload of a report is parsed JSON, and the code never checks the
    type of a field: it tests truth values, compares with a string literal,
    and formats values as text.  [PDate] is a [datetime]; [POther] stands for
    a float, list or dict, of which only the truth value and the text are
    ever observed. *)

Inductive pyval :=
| PNone
| PBool (b : bool)
| PInt (n : Z)
| PStr (s : string)
| PDate (instant : Z) (repr : string)
| POther (truthy : bool) (repr : string).

Global Instance pyval_eq_dec : EqDecision pyval.
Proof. solve_decision. Defined.

(** [bool(v)], the test an [if] or an [and] applies to its operand. *)
Definition truth (v : pyval) : bool :=
  match v with
  | PNone => false
  | PBool b => b
  | PInt n => negb (n =? 0)
  | PStr s => negb (String.eqb s "")
  | PDate _ _ => true
  | POther t _ => t
  end.

(** [v == "..."] against a string literal: only a string can be equal. *)
Definition eq_str (v : pyval) (lit : string) : bool :=
  match v with
  | PStr s => String.eqb s lit
  | _ => false
  end.

(** [str(v)], also what an f-string interpolates. *)
Definition str (v : pyval) : string :=
  match v with
  | PNone => "None"
  | PBool true => "True"
  | PBool false => "False"
  | PInt n => pretty n
  | PStr s => s
  | PDate _ r => r
  | POther _ r => r
  end.

(** A dict with string keys; [d.get(k, default)]. *)
Abbreviation dict := (gmap string pyval).

Definition get (d : dict) (k : string) (default : pyval) : pyval :=
  match d !! k with
  | Some v => v
  | None => default
  end.

(** ** The CSV file

    The file is kept as the list of rows written to it, a row being the list
    of its cells.  [csv.writer] writes [None] as the empty cell and every
    other value through [str].  The file is written with [newline=''] but
    read back in text mode with universal newlines, so a carriage return
    inside a cell comes back as a line feed, and a quoted cell that holds a
    line break spans more than one line of the file.  Opening the file and
    appending to it are taken to succeed; what the code does when the file
    is absent, empty, or holds short rows is modelled. *)

Abbreviation row := (list string).

Definition csv_cell (v : pyval) : string :=
  match v with
  | PNone => ""
  | _ => str v
  end.

Definition CR : ascii := Ascii.ascii_of_nat 13.
Definition LF : ascii := Ascii.ascii_of_nat 10.

Fixpoint universal_newlines (s : string) : string :=
  match s with
  | EmptyString => EmptyString
  | String c rest =>
      if Ascii.eqb c CR then
        match rest with
        | String c' rest' =>
            if Ascii.eqb c' LF then String LF (universal_newlines rest')
            else String LF (universal_newlines rest)
        | EmptyString => String LF EmptyString
        end
      else String c (universal_newlines rest)
  end.

(** Line breaks a cell adds to the file: CR LF counts once. *)
Fixpoint line_breaks (s : string) : nat :=
  match s with
  | EmptyString => 0%nat
  | String c rest =>
      if Ascii.eqb c CR then
        match rest with
        | String c' rest' =>
            if Ascii.eqb c' LF then S (line_breaks rest') else S (line_breaks rest)
        | EmptyString => 1%nat
        end
      else if Ascii.eqb c LF then S (line_breaks rest)
      else line_breaks rest
  end.

Definition row_lines (r : row) : nat := S (list_sum (line_breaks <$> r)).

(** What [csv.reader] yields for the file, and what iterating over the open
    file counts. *)
Definition read_rows (file : list row) : list row :=
  (λ r : row, universal_newlines <$> r) <$> file.

Definition count_lines (file : list row) : nat := list_sum (row_lines <$> file).

(** ** The world *)

Inductive effect :=
| Stdout (line : string)
| CallSendSms (device_id alert_type : pyval)
| TwilioCreate (body : string) (from_ to : pyval)
| CsvAppend (r : row)
| MongoInsert (doc : dict)
| MongoFind
| MongoCount.

Record world := World {
  TWILIO_AVAILABLE : bool;
  MONGO_AVAILABLE : bool;
  TWILIO_FROM_NUMBER : pyval;
  EMERGENCY_CONTACT : pyval;
  csv_file : option (list row);
  events_collection : list dict;
  effects : list effect
}.

Definition with_csv (f : option (list row)) (w : world) : world :=
  World (TWILIO_AVAILABLE w) (MONGO_AVAILABLE w) (TWILIO_FROM_NUMBER w)
        (EMERGENCY_CONTACT w) f (events_collection w) (effects w).

Definition with_collection (c : list dict) (w : world) : world :=
  World (TWILIO_AVAILABLE w) (MONGO_AVAILABLE w) (TWILIO_FROM_NUMBER w)
        (EMERGENCY_CONTACT w) (csv_file w) c (effects w).

Definition with_effect (e : effect) (w : world) : world :=
  World (TWILIO_AVAILABLE w) (MONGO_AVAILABLE w) (TWILIO_FROM_NUMBER w)
        (EMERGENCY_CONTACT w) (csv_file w) (events_collection w)
        (effects w ++ [e]).

(** What the outside answers during one request. *)
Record replies := Replies {
  now_str : string;                 (* get_current_timestamp() *)
  now_dt : pyval;                   (* get_current_datetime() *)
  twilio_reply : string + string;   (* message sid, or the exception text *)
  insert_reply : pyval + string;    (* inserted id, or the exception text *)
  find_reply : option string;       (* [Some msg]: the query raises *)
  count_reply : option string;      (* [Some msg]: the count raises *)
  time_time : pyval                 (* time.time() *)
}.

(** ** Exceptions and the monad *)

Inductive exn :=
| StopIteration
| IndexError
| RequestError (msg : string)
| TwilioError (msg : string)
| MongoError (msg : string).

Definition exn_str (e : exn) : string :=
  match e with
  | StopIteration => ""
  | IndexError => "list index out of range"
  | RequestError msg => msg
  | TwilioError msg => msg
  | MongoError msg => msg
  end.

Inductive result (A : Type) :=
| Ok (a : A)
| Raise (e : exn).
Arguments Ok {A} a.
Arguments Raise {A} e.

Definition M (A : Type) : Type := world → result A * world.

Global Instance M_ret : MRet M := λ A a w, (Ok a, w).
Global Instance M_bind : MBind M := λ A B f m w,
  match m w with
  | (Ok a, w') => f a w'
  | (Raise e, w') => (Raise e, w')
  end.

Definition raise {A} (e : exn) : M A := λ w, (Raise e, w).
Definition read {A} (f : world → A) : M A := λ w, (Ok (f w), w).
Definition emit (e : effect) : M unit := λ w, (Ok (), with_effect e w).
Definition print (line : string) : M unit := emit (Stdout line).

(** [try: body except Exception as e: handler e] *)
Definition try_except {A} (body : M A) (handler : exn → M A) : M A := λ w,
  match body w with
  | (Ok a, w') => (Ok a, w')
  | (Raise e, w') => handler e w'
  end.

Definition returned {A} (r : result A * world) : option A :=
  match r.1 with
  | Ok a => Some a
  | Raise _ => None
  end.

Definition raised {A} (r : result A * world) : option exn :=
  match r.1 with
  | Ok _ => None
  | Raise e => Some e
  end.

Definition modify (f : world → world) : M unit := λ w, (Ok (), f w).

(** ** Configuration *)

Definition CSV_FILE : string := "fall_events.csv".
Definition TIMEZONE : string := "Asia/Kolkata".

(** ** The outside: clock, SMS provider, database driver *)

Definition get_current_timestamp (rp : replies) : M string := mret (now_str rp).

Definition get_current_datetime (rp : replies) : M pyval := mret (now_dt rp).

(** [twilio_client.messages.create(body=..., from_=..., to=...)] *)
Definition messages_create (rp : replies) (body : string) : M string :=
  from_ ← read TWILIO_FROM_NUMBER;
  to ← read EMERGENCY_CONTACT;
  _ ← emit (TwilioCreate body from_ to);
  match twilio_reply rp with
  | inl sid => mret sid
  | inr msg => raise (TwilioError msg)
  end.

(** [events_collection.insert_one(doc)]: the driver adds the [_id]. *)
Definition insert_one (rp : replies) (doc : dict) : M pyval :=
  _ ← emit (MongoInsert doc);
  match insert_reply rp with
  | inl id =>
      _ ← modify (λ w, with_collection (events_collection w ++ [<["_id" := id]> doc]) w);
      mret id
  | inr msg => raise (MongoError msg)
  end.

(** The order of [sort('timestamp', -1)]: dates newest first; a document
    whose [timestamp] is missing or not a date ranks below every date in the
    database's comparison order, so it comes after all of them. *)
Definition timestamp_key (d : dict) : option Z :=
  match d !! "timestamp" with
  | Some (PDate t _) => Some t
  | _ => None
  end.

Definition key_ge (a b : option Z) : Prop :=
  match a, b with
  | _, None => True
  | None, Some _ => False
  | Some x, Some y => y ≤ x
  end.

Definition newer_eq (d1 d2 : dict) : Prop :=
  key_ge (timestamp_key d1) (timestamp_key d2).

Global Instance key_ge_dec a b : Decision (key_ge a b).
Proof. destruct a, b; simpl; apply _. Defined.

Global Instance newer_eq_dec d1 d2 : Decision (newer_eq d1 d2).
Proof. unfold newer_eq. apply _. Defined.

(** [list(events_collection.find().sort('timestamp', -1).limit(n))] *)
Definition find_sort_limit (rp : replies) (n : nat) : M (list dict) :=
  _ ← emit MongoFind;
  match find_reply rp with
  | None => docs ← read events_collection; mret (take n (merge_sort newer_eq docs))
  | Some msg => raise (MongoError msg)
  end.

(** [events_collection.count_documents({})] *)
Definition count_documents (rp : replies) : M Z :=
  _ ← emit MongoCount;
  match count_reply rp with
  | None => docs ← read events_collection; mret (Z.of_nat (length docs))
  | Some msg => raise (MongoError msg)
  end.

(** ** The CSV side *)

Definition header_row : row :=
  ["timestamp"; "detection"; "alert_type"; "device_id"; "sms_sent"].

Definition initialize_csv : M unit :=
  f ← read csv_file;
  match f with
  | None =>
      _ ← modify (with_csv (Some [header_row]));
      print ("Created new CSV file: " +:+ CSV_FILE)
  | Some _ => mret ()
  end.

(** [with open(CSV_FILE, 'a', newline='') as csvfile: writer.writerow(r)];
    opening for append creates the file when it is not there. *)
Definition writerow (r : row) : M unit :=
  _ ← emit (CsvAppend r);
  modify (λ w, with_csv (Some (default [] (csv_file w) ++ [r])) w).

(** The body of the loop over the rows read back. *)
Definition add_missing_columns (event : row) : row :=
  let event := if (length event <? 4)%nat then event ++ ["unknown"] else event in
  if (length event <? 5)%nat then event ++ ["No"] else event.

Definition get_events_from_csv : M (list row) :=
  f ← read csv_file;
  match f with
  | None => mret []
  | Some file =>
      match read_rows file with
      | [] => raise StopIteration                       (* next(reader) *)
      | header :: events =>
          mret (add_missing_columns <$> take 20 (reverse events))
      end
  end.

(** ** The notification gateway *)

Definition provider_accepts (rp : replies) : bool :=
  match twilio_reply rp with
  | inl _ => true
  | inr _ => false
  end.

Definition alert_body (device_id alert_type : pyval) : string :=
  "ALERT: A person may have fallen! Device ID: " +:+ str device_id +:+
  ", Alert type: " +:+ str alert_type +:+ ". Please check immediately.".

Definition send_sms_alert (rp : replies) (device_id alert_type : pyval) : M bool :=
  _ ← emit (CallSendSms device_id alert_type);
  available ← read TWILIO_AVAILABLE;
  if negb available then
    _ ← print "Twilio not available. SMS alert not sent.";
    mret false
  else
    try_except
      (sid ← messages_create rp (alert_body device_id alert_type);
       _ ← print ("SMS alert sent with SID: " +:+ sid);
       mret true)
      (λ e, _ ← print ("Error sending SMS alert: " +:+ exn_str e);
            mret false).

(** ** Ingestion *)

Definition event_doc (rp_dt : pyval) (timestamp : string)
    (detection alert_type device_id : pyval) (sms_sent : string) : dict :=
  {[ "timestamp" := rp_dt;
     "timestamp_str" := PStr timestamp;
     "device_id" := device_id;
     "detection" := detection;
     "alert_type" := alert_type;
     "sms_sent" := PStr sms_sent ]}.

Definition log_event (rp : replies) (detection alert_type device_id : pyval) : M string :=
  timestamp ← get_current_timestamp rp;
  sms_sent ←
    (if truth detection && eq_str alert_type "real alert" then
       sms_success ← send_sms_alert rp device_id alert_type;
       mret (if sms_success : bool then "Yes" else "Failed")
     else mret "No");
  _ ← writerow [timestamp; csv_cell detection; csv_cell alert_type;
                csv_cell device_id; sms_sent];
  available ← read MONGO_AVAILABLE;
  _ ← (if available : bool then
         try_except
           (dt ← get_current_datetime rp;
            id ← insert_one rp (event_doc dt timestamp detection alert_type device_id sms_sent);
            print ("Event saved to MongoDB with ID: " +:+ str id))
           (λ e, print ("Error saving to MongoDB: " +:+ exn_str e))
       else mret ());
  mret sms_sent.

(** ** HTTP handlers *)

(** [request.json]: a JSON object, or anything on which [request.json] or
    the first [data.get] raises (no JSON, or JSON that is not an object). *)
Inductive request_body :=
| JsonObject (data : dict)
| Unusable (msg : string).

Definition request_json (req : request_body) : M dict :=
  match req with
  | JsonObject data => mret data
  | Unusable msg => raise (RequestError msg)
  end.

(** What [jsonify] is given, with the status code. *)
Inductive json :=
| JObject (d : dict)
| JArray (l : list dict).

Record response := Response { body : json; status_code : nat }.

Definition fall_event (rp : replies) (req : request_body) : M response :=
  try_except
    (data ← request_json req;
     let detected := get data "detect" (PBool false) in
     let alert_type := get data "type" (PStr "unknown") in
     let device_id := get data "device_id" (PStr "unknown") in
     _ ← print ("Received fall event: Detected=" +:+ str detected +:+ ", Type=" +:+
                str alert_type +:+ ", Device=" +:+ str device_id);
     sms_status ← log_event rp detected alert_type device_id;
     mret (Response (JObject {[ "status" := PStr "success";
                                "message" := PStr "Event logged successfully";
                                "sms_alert" := PStr sms_status ]}) 200))
    (λ e, _ ← print ("Error processing fall event: " +:+ exn_str e);
          mret (Response (JObject {[ "status" := PStr "error";
                                     "message" := PStr (exn_str e) ]}) 500)).

(** One document of the collection as [/events] shows it. *)
Definition mongo_event (event : dict) : dict :=
  {[ "timestamp" := get event "timestamp_str" (PStr (str (get event "timestamp" PNone)));
     "detection" := get event "detection" PNone;
     "alert_type" := get event "alert_type" (PStr "unknown");
     "device_id" := get event "device_id" (PStr "unknown");
     "sms_sent" := get event "sms_sent" (PStr "No");
     "_id" := PStr (str (get event "_id" PNone)) ]}.

(** One CSV row as [/events] shows it; [e[0]], [e[1]] and [e[2]] raise on a
    row that is too short. *)
Definition csv_event (e : row) : M dict :=
  match e !! 0%nat, e !! 1%nat, e !! 2%nat with
  | Some e0, Some e1, Some e2 =>
      let event_dict : dict :=
        {[ "timestamp" := PStr e0; "detection" := PStr e1; "alert_type" := PStr e2 ]} in
      let event_dict : dict :=
        match e !! 3%nat with                          (* len(e) > 3 *)
        | Some e3 => <["device_id" := PStr e3]> event_dict
        | None => event_dict
        end in
      let event_dict : dict :=
        match e !! 4%nat with                          (* len(e) > 4 *)
        | Some e4 => <["sms_sent" := PStr e4]> event_dict
        | None => event_dict
        end in
      mret event_dict
  | _, _, _ => raise IndexError
  end.

Definition events_from_csv : M (list dict) :=
  csv_events ← get_events_from_csv;
  mapM csv_event csv_events.

Definition events (rp : replies) : M response :=
  try_except
    (available ← read MONGO_AVAILABLE;
     events ←
       (if available : bool then
          try_except
            (mongo_events ← find_sort_limit rp 20;
             mret (mongo_event <$> mongo_events))
            (λ e, _ ← print ("Error fetching from MongoDB: " +:+ exn_str e);
                  events_from_csv)
        else events_from_csv);
     mret (Response (JArray events) 200))
    (λ e, mret (Response (JObject {[ "error" := PStr (exn_str e) ]}) 500)).

(** The dashboard, up to the rendering: [index] is modelled by the list of
    events it hands to the template.  Nothing encloses the fallback read
    here, so what the reader raises leaves the handler. *)
Definition mongo_row (event : dict) : list pyval :=
  [get event "timestamp_str" (PStr (str (get event "timestamp" PNone)));
   PStr (str (get event "detection" PNone));
   get event "alert_type" (PStr "unknown");
   get event "device_id" (PStr "unknown");
   get event "sms_sent" (PStr "No")].

Definition index (rp : replies) : M (list (list pyval)) :=
  available ← read MONGO_AVAILABLE;
  if available : bool then
    try_except
      (mongo_events ← find_sort_limit rp 20;
       mret (mongo_row <$> mongo_events))
      (λ e, _ ← print ("Error fetching from MongoDB: " +:+ exn_str e);
            events ← get_events_from_csv;
            mret ((λ r : row, PStr <$> r) <$> events))
  else
    events ← get_events_from_csv;
    mret ((λ r : row, PStr <$> r) <$> events).

(** [sum(1 for line in open(CSV_FILE)) - 1] when the file exists. *)
Definition csv_record_count (record_count : Z) : M Z :=
  f ← read csv_file;
  match f with
  | Some file => mret (Z.of_nat (count_lines file) - 1)
  | None => mret record_count
  end.

Definition api_status (rp : replies) : M response :=
  let record_count := 0 in
  available ← read MONGO_AVAILABLE;
  twilio ← read TWILIO_AVAILABLE;
  record_count ←
    (if available : bool then
       try_except (count_documents rp) (λ _, csv_record_count record_count)
     else csv_record_count record_count);
  mret (Response (JObject
    {[ "status" := PStr "online";
       "time" := time_time rp;
       "timezone" := PStr TIMEZONE;
       "records_count" := PInt record_count;
       "database" := PStr (if available : bool then "mongodb" else "csv");
       "mongo_status" := PStr (if available : bool then "connected" else "disconnected");
       "twilio_status" := PStr (if twilio : bool then "connected" else "disconnected") ]})
    200).

(** ** Observations on a run *)

(** The effects performed between world [w] and a later world [w']. *)
Definition performed (w w' : world) : list effect :=
  drop (length (effects w)) (effects w').

Definition is_send_sms (e : effect) : bool :=
  match e with CallSendSms _ _ => true | _ => false end.

Definition is_twilio_create (e : effect) : bool :=
  match e with TwilioCreate _ _ _ => true | _ => false end.

Definition is_mongo (e : effect) : bool :=
  match e with MongoInsert _ | MongoFind | MongoCount => true | _ => false end.

Definition is_csv_append (e : effect) : bool :=
  match e with CsvAppend _ => true | _ => false end.

(** [send_sms_alert] was called; the provider itself was contacted. *)
Definition gateway_invoked (es : list effect) : bool := existsb is_send_sms es.
Definition provider_contacted (es : list effect) : bool := existsb is_twilio_create es.

(** Between [w] and [w'] exactly one five-cell row was appended to the file,
    its last cell is [s], and every document handed to the database carries
    the same [sms_sent]. *)
Definition persisted_sms_sent (w w' : world) (s : string) : Prop :=
  (∃ r : row, csv_file w' = Some (default [] (csv_file w) ++ [r]) ∧
              length r = 5%nat ∧ r !! 4%nat = Some s) ∧
  (∀ doc : dict, MongoInsert doc ∈ performed w w' → doc !! "sms_sent" = Some (PStr s)).

Definition response_field (r : response) (k : string) : option pyval :=
  match body r with
  | JObject d => d !! k
  | JArray _ => None
  end.

Definition records (r : response) : list dict :=
  match body r with
  | JObject _ => []
  | JArray l => l
  end.

(** The timestamp cell of a row as read back. *)
Definition row_timestamp (e : row) : string := default "" (e !! 0%nat).


(** What [/events] answers on the CSV path, given what the reader and the
    row conversion produced. *)
Definition csv_answer (r : result (list dict)) : response :=
  match r with
  | Ok evs => Response (JArray evs) 200
  | Raise e => Response (JObject {[ "error" := PStr (exn_str e) ]}) 500
  end.

(** Two records compared through their [timestamp] text by a relation on
    such texts. *)
Definition by_timestamp (R : relation string) (d1 d2 : dict) : Prop :=
  ∃ t1 t2, d1 !! "timestamp" = Some (PStr t1) ∧ d2 !! "timestamp" = Some (PStr t2) ∧
           R t1 t2.

(** ** Device provisioning and the dashboard template *)

Definition PORT : Z := 5000.

(** [request.host.split(':')[0]] *)
Fixpoint before_colon (host : string) : string :=
  match host with
  | EmptyString => EmptyString
  | String c rest =>
      if Ascii.eqb c ":"%char then EmptyString else String c (before_colon rest)
  end.

Definition config (host : string) : M response :=
  let server_ip := before_colon host in
  mret (Response (JObject
    {[ "server_ip" := PStr server_ip;
       "api_endpoint" := PStr ("http://" +:+ server_ip +:+ ":" +:+ pretty PORT +:+
                               "/fall_event") ]}) 200).



(** ** Requests one after another *)

(** POST /fall_event handled for each request of a list in turn, each with
    the answers the outside gave during it. *)
Fixpoint serve (reqs : list (replies * request_body)) : M (list response) :=
  match reqs with
  | [] => mret []
  | (rp, req) :: rest =>
      resp ← fall_event rp req;
      resps ← serve rest;
      mret (resp :: resps)
  end.

Definition is_json_object (req : request_body) : bool :=
  match req with JsonObject _ => true | Unusable _ => false end.

(** The clock readings of the requests that carry a JSON object, as the
    reader will return them. *)
Definition stamps (reqs : list (replies * request_body)) : list string :=
  (λ r : replies * request_body, universal_newlines (now_str r.1)) <$>
    List.filter (λ r : replies * request_body, is_json_object r.2) reqs.

(** The [sms_alert] fields of a list of answers, and the [sms_sent] column
    of a list of rows. *)
Definition sms_alerts (resps : list response) : list pyval :=
  omap (λ resp, response_field resp "sms_alert") resps.

Definition sms_column (rows : list row) : list pyval :=
  omap (λ r : row, PStr <$> r !! 4%nat) rows.

(** The calls made to the SMS provider among some effects. *)
Definition provider_calls (es : list effect) : list effect :=
  List.filter is_twilio_create es.

(** What the stores and the flags hold, apart from the effect log. *)
Definition stores (w : world) : bool * bool * option (list row) * list dict :=
  (TWILIO_AVAILABLE w, MONGO_AVAILABLE w, csv_file w, events_collection w).


(** The effects of one call of the gateway after its entry, and of one call
    of [log_event], in the order the code performs them. *)
Definition gateway_trace (rp : replies) (w : world) (device_id alert_type : pyval) :
    list effect :=
  if TWILIO_AVAILABLE w then
    [TwilioCreate (alert_body device_id alert_type) (TWILIO_FROM_NUMBER w)
                  (EMERGENCY_CONTACT w);
     Stdout (match twilio_reply rp with
             | inl sid => "SMS alert sent with SID: " +:+ sid
             | inr msg => "Error sending SMS alert: " +:+ msg
             end)]
  else [Stdout "Twilio not available. SMS alert not sent."].

Definition sms_outcome (rp : replies) (w : world) (detection alert_type : pyval) : string :=
  if truth detection && eq_str alert_type "real alert" then
    if TWILIO_AVAILABLE w && provider_accepts rp then "Yes" else "Failed"
  else "No".

Definition logged_row (rp : replies) (w : world) (detection alert_type device_id : pyval) :
    row :=
  [now_str rp; csv_cell detection; csv_cell alert_type; csv_cell device_id;
   sms_outcome rp w detection alert_type].

Definition logged_doc (rp : replies) (w : world) (detection alert_type device_id : pyval) :
    dict :=
  event_doc (now_dt rp) (now_str rp) detection alert_type device_id
            (sms_outcome rp w detection alert_type).

Definition log_event_trace (rp : replies) (w : world)
    (detection alert_type device_id : pyval) : list effect :=
  (if truth detection && eq_str alert_type "real alert" then
     CallSendSms device_id alert_type :: gateway_trace rp w device_id alert_type
   else []) ++
  [CsvAppend (logged_row rp w detection alert_type device_id)] ++
  (if MONGO_AVAILABLE w then
     [MongoInsert (logged_doc rp w detection alert_type device_id);
      Stdout (match insert_reply rp with
              | inl id => "Event saved to MongoDB with ID: " +:+ str id
              | inr msg => "Error saving to MongoDB: " +:+ msg
              end)]
   else []).

(** ** Further observations *)

(** A computation that writes to neither store and changes no flag. *)
Definition keeps_stores {A} (m : M A) : Prop := ∀ w, stores (m w).2 = stores w.

(** The [records_count] that GET /status reports. *)
Definition reported_count (rp : replies) (w : world) : option pyval :=
  returned (api_status rp w) ≫= λ resp, response_field resp "records_count".

(** ** Sample inputs, used to run the handlers on concrete cases *)

Definition sample_replies : replies :=
  Replies "2024-05-01 10:00:00 IST" (PDate 1714537800 "2024-05-01 10:00:00+05:30")
          (inl "SM0001") (inl (POther true "662f0001")) None None
          (POther true "1714537800.25").

(** A freshly initialised deployment: the file holds its header only. *)
Definition fresh_world (twilio mongo : bool) : world :=
  World twilio mongo (PStr "+15550100") (PStr "+15550199") (Some [header_row]) [] [].

(** A file that exists but holds no line at all. *)
Definition empty_file_world : world := with_csv (Some []) (fresh_world false false).

Definition real_alert_report : dict :=
  {[ "detect" := PBool true; "type" := PStr "real alert"; "device_id" := PStr "esp-7" ]}.

(** The same answers, except that the insert into the collection raises. *)
Definition insert_fails_replies : replies :=
  Replies "2024-05-01 10:00:00 IST" (PDate 1714537800 "2024-05-01 10:00:00+05:30")
          (inl "SM0001") (inr "connection reset") None None
          (POther true "1714537800.25").

(** The same answers, except that every call to the database raises. *)
Definition primary_down_replies : replies :=
  Replies "2024-05-01 10:00:00 IST" (PDate 1714537800 "2024-05-01 10:00:00+05:30")
          (inl "SM0001") (inr "connection reset") (Some "connection reset")
          (Some "connection reset") (POther true "1714537800.25").

(** The same answers from a clock that is behind the stored event below. *)
Definition stale_clock_replies : replies :=
  Replies "2024-04-29 10:00:00 IST" (PDate 1714365000 "2024-04-29 10:00:00+05:30")
          (inl "SM0001") (inl (POther true "662f0001")) None None
          (POther true "1714365000.25").

(** A device identifier with a carriage return in it. *)
Definition device_id_with_cr : string := String "a" (String CR "b").

(** A collection that already holds one older event. *)
Definition older_event : dict :=
  <["_id" := POther true "662e0000"]>
    (event_doc (PDate 1714451400 "2024-04-30 10:00:00+05:30") "2024-04-30 10:00:00 IST"
               (PBool false) (PStr "false alert") (PStr "esp-3") "No").

Definition world_with_history : world :=
  with_collection [older_event] (fresh_world true true).

(** A file with three legacy rows, oldest first, and no primary store. *)
Definition legacy_file_world : world :=
  with_csv (Some [header_row;
                  ["2023-01-01 09:00:00 IST"; "True"; "real alert"];
                  ["2023-01-01 09:00:00 IST"; "False"; "false alert"; "esp-3"];
                  ["2023-01-02 18:30:00 IST"; "True"; "real alert"; "esp-7"; "Yes"]])
           (fresh_world true false).


(** Two reports, the second stamped later than the first. *)
Definition two_reports : list (replies * request_body) :=
  [(stale_clock_replies, JsonObject {[ "detect" := PBool false ]});
   (sample_replies, JsonObject real_alert_report)].

(** A deployment whose file is not there: the module was imported without
    running its main part, or the file was removed. *)
Definition missing_file_world : world :=
  with_csv None (fresh_world true false).

(** * Facts about the model *)

(** ** Running the monad in proofs *)

Ltac run :=
  unfold fall_event, events, api_status, events_from_csv, csv_record_count,
    request_json, log_event, send_sms_alert, get_events_from_csv, writerow,
    initialize_csv, messages_create, insert_one, find_sort_limit,
    count_documents, get_current_timestamp, get_current_datetime, print,
    mbind, M_bind, mret, M_ret, read, emit, modify, raise, try_except,
    with_effect, with_csv, with_collection;
  simpl.

Ltac assoc := rewrite <- ?app_assoc; simpl.

Lemma performed_app (w w' : world) (es : list effect) :
  effects w' = effects w ++ es → performed w w' = es.
Proof. unfold performed. intros ->. apply drop_app_length. Qed.

(** Stepping through [≫=] and [try: ... except]. *)
Lemma bind_ok {A B} (m : M A) (f : A → M B) (w w' : world) (a : A) :
  m w = (Ok a, w') → (m ≫= f) w = f a w'.
Proof. unfold mbind, M_bind. by intros ->. Qed.

Lemma bind_eq {A B} (m : M A) (f : A → M B) (w : world) :
  (m ≫= f) w =
    match m w with
    | (Ok a, w') => f a w'
    | (Raise e, w') => (Raise e, w')
    end.
Proof. reflexivity. Qed.

Lemma bind_raise {A B} (m : M A) (f : A → M B) (w w' : world) (e : exn) :
  m w = (Raise e, w') → (m ≫= f) w = (Raise e, w').
Proof. unfold mbind, M_bind. by intros ->. Qed.

Lemma try_except_ok {A} (m : M A) (h : exn → M A) (w w' : world) (a : A) :
  m w = (Ok a, w') → try_except m h w = (Ok a, w').
Proof. unfold try_except. by intros ->. Qed.

Lemma try_except_raise {A} (m : M A) (h : exn → M A) (w w' : world) (e : exn) :
  m w = (Raise e, w') → try_except m h w = h e w'.
Proof. unfold try_except. by intros ->. Qed.

Lemma performed_trans (w w1 w2 : world) (es1 : list effect) :
  effects w1 = effects w ++ es1 →
  (∃ es2, effects w2 = effects w1 ++ es2) →
  performed w w2 = es1 ++ performed w1 w2.
Proof.
  intros H1 [es2 H2]. rewrite (performed_app w1 w2 es2) by done.
  apply performed_app. by rewrite H2, H1, <- app_assoc.
Qed.

(** ** The gateway and [log_event] *)

Section Gateway.
Variables (rp : replies) (w : world) (device_id alert_type : pyval).

(** The gateway fails soft: it always returns a boolean, touches neither
    store, and contacts the provider only when it was initialised. *)
Lemma send_sms_alert_returns :
  ∃ ok es,
    send_sms_alert rp device_id alert_type w =
      (Ok ok, World (TWILIO_AVAILABLE w) (MONGO_AVAILABLE w) (TWILIO_FROM_NUMBER w)
                    (EMERGENCY_CONTACT w) (csv_file w) (events_collection w)
                    (effects w ++ CallSendSms device_id alert_type :: es)) ∧
    ok = TWILIO_AVAILABLE w && provider_accepts rp ∧
    forallb (λ e, negb (is_send_sms e || is_mongo e || is_csv_append e)) es = true ∧
    provider_contacted es = TWILIO_AVAILABLE w.
Proof.
  unfold provider_accepts. run.
  destruct (TWILIO_AVAILABLE w); simpl;
    [destruct (twilio_reply rp) as [sid|msg]; simpl|];
    eexists _, _; (split; [assoc; reflexivity|]); auto.
Qed.
End Gateway.

Section Ingestion.
Variables (rp : replies) (w : world) (detection alert_type device_id : pyval).

(** The test on line 100 of the source. *)
Let notify : bool := truth detection && eq_str alert_type "real alert".

Let sms : string :=
  if notify then
    if TWILIO_AVAILABLE w && provider_accepts rp then "Yes" else "Failed"
  else "No".

Let r : row :=
  [now_str rp; csv_cell detection; csv_cell alert_type; csv_cell device_id; sms].

Let doc : dict :=
  event_doc (now_dt rp) (now_str rp) detection alert_type device_id sms.

(** One run of [log_event], spelled out: it returns, the row is appended
    whatever the database does, and an insert that raises leaves only a
    line on standard output. *)
Lemma log_event_runs :
  ∃ pre post,
    log_event rp detection alert_type device_id w =
      (Ok sms,
       World (TWILIO_AVAILABLE w) (MONGO_AVAILABLE w) (TWILIO_FROM_NUMBER w)
             (EMERGENCY_CONTACT w)
             (Some (default [] (csv_file w) ++ [r]))
             (if MONGO_AVAILABLE w then
                match insert_reply rp with
                | inl id => events_collection w ++ [<["_id" := id]> doc]
                | inr _ => events_collection w
                end
              else events_collection w)
             (effects w ++ pre ++ CsvAppend r :: post)) ∧
    (if notify then
       ∃ es, pre = CallSendSms device_id alert_type :: es ∧
             forallb (λ e, negb (is_send_sms e || is_mongo e || is_csv_append e)) es = true ∧
             provider_contacted es = TWILIO_AVAILABLE w
     else pre = []) ∧
    post =
      if MONGO_AVAILABLE w then
        [MongoInsert doc;
         Stdout (match insert_reply rp with
                 | inl id => "Event saved to MongoDB with ID: " +:+ str id
                 | inr msg => "Error saving to MongoDB: " +:+ msg
                 end)]
      else [].
Proof.
  subst doc r sms notify.
  destruct (send_sms_alert_returns rp w device_id alert_type)
    as (ok & es & Hrun & Hok & Hes & Hprov).
  exists (if truth detection && eq_str alert_type "real alert"
          then CallSendSms device_id alert_type :: es else []).
  eexists. split; [|split; [|reflexivity]].
  - unfold log_event. unfold mbind at 1 2. unfold M_bind at 1 2.
    unfold get_current_timestamp, mret at 1, M_ret at 1.
    destruct (truth detection && eq_str alert_type "real alert").
    + unfold mbind at 1, M_bind at 1. rewrite Hrun, <- Hok.
      run. destruct (MONGO_AVAILABLE w); [destruct (insert_reply rp)|];
        destruct ok; simpl; assoc; reflexivity.
    + run. destruct (MONGO_AVAILABLE w); [destruct (insert_reply rp)|];
        simpl; assoc; reflexivity.
  - destruct (truth detection && eq_str alert_type "real alert"); eauto.
Qed.
End Ingestion.


Lemma event_doc_lookup dt ts detection alert_type device_id s :
  let d := event_doc dt ts detection alert_type device_id s in
  d !! "timestamp" = Some dt ∧ d !! "timestamp_str" = Some (PStr ts) ∧
  d !! "device_id" = Some device_id ∧ d !! "detection" = Some detection ∧
  d !! "alert_type" = Some alert_type ∧ d !! "sms_sent" = Some (PStr s) ∧
  d !! "_id" = None.
Proof. repeat split. Qed.

Lemma quiet_not_mongo (es : list effect) (d : dict) :
  forallb (λ e, negb (is_send_sms e || is_mongo e || is_csv_append e)) es = true →
  MongoInsert d ∉ es.
Proof.
  intros Hq Hin. rewrite forallb_forall in Hq.
  apply list_elem_of_In, Hq in Hin. discriminate.
Qed.

(** What [log_event] leaves behind, in the vocabulary of the claims. *)
Lemma log_event_persists rp w detection alert_type device_id :
  let run := log_event rp detection alert_type device_id w in
  let notify := truth detection && eq_str alert_type "real alert" in
  ∃ s, run.1 = Ok s ∧
       gateway_invoked (performed w run.2) = notify ∧
       provider_contacted (performed w run.2) = notify && TWILIO_AVAILABLE w ∧
       persisted_sms_sent w run.2 s ∧
       s = if notify then
             if TWILIO_AVAILABLE w && provider_accepts rp then "Yes" else "Failed"
           else "No".
Proof.
  pose proof (log_event_runs rp w detection alert_type device_id) as H.
  cbv zeta in *. destruct H as (pre & post & -> & Hpre & Hpost).
  eexists; split; [reflexivity|]. simpl.
  match goal with |- context [performed w ?w1] =>
    assert (Hperf : performed w w1 = pre ++ CsvAppend
              [now_str rp; csv_cell detection; csv_cell alert_type; csv_cell device_id;
               if truth detection && eq_str alert_type "real alert"
               then if TWILIO_AVAILABLE w && provider_accepts rp then "Yes" else "Failed"
               else "No"] :: post)
      by (by apply performed_app)
  end.
  unfold persisted_sms_sent. rewrite !Hperf. clear Hperf. simpl.
  assert (Hpost' : ∀ d, MongoInsert d ∈ post → d !! "sms_sent" = Some (PStr
            (if truth detection && eq_str alert_type "real alert"
             then if TWILIO_AVAILABLE w && provider_accepts rp then "Yes" else "Failed"
             else "No"))).
  { intros d Hd. subst post. destruct (MONGO_AVAILABLE w); [|by apply elem_of_nil in Hd].
    apply elem_of_cons in Hd as [Hd|Hd]; [injection Hd as ->; apply event_doc_lookup|].
    apply elem_of_cons in Hd as [Hd|Hd]; [done|by apply elem_of_nil in Hd]. }
  assert (Hg : gateway_invoked post = false ∧ provider_contacted post = false).
  { subst post. destruct (MONGO_AVAILABLE w); done. }
  destruct Hg as [Hg Hp].
  unfold gateway_invoked, provider_contacted in *. rewrite !existsb_app. simpl.
  rewrite Hg, Hp.
  destruct (truth detection && eq_str alert_type "real alert").
  - destruct Hpre as (es & -> & Hq & Hprov). simpl.
    split; [done|]. split.
    { rewrite Hprov. by rewrite orb_false_r. }
    split; [|done]. split; [eexists; split; [reflexivity|done]|].
    intros d Hd. apply elem_of_cons in Hd as [Hd|Hd]; [done|].
    apply elem_of_app in Hd as [Hd|Hd]; [by apply quiet_not_mongo in Hd|].
    apply elem_of_cons in Hd as [Hd|Hd]; [done|auto].
  - subst pre. simpl. split; [done|]. split; [done|].
    split; [|done]. split; [eexists; split; [reflexivity|done]|].
    intros d Hd. apply elem_of_cons in Hd as [Hd|Hd]; [done|auto].
Qed.

(** ** POST /fall_event *)


Section Report.
Variables (rp : replies) (w : world) (data : dict).

Let detected := get data "detect" (PBool false).
Let alert_type := get data "type" (PStr "unknown").
Let device_id := get data "device_id" (PStr "unknown").
Let received : effect :=
  Stdout ("Received fall event: Detected=" +:+ str detected +:+ ", Type=" +:+
          str alert_type +:+ ", Device=" +:+ str device_id).

(** A report that is a JSON object is answered with the success object
    built from what [log_event] returned, in the world [log_event] left. *)
Lemma fall_event_runs :
  ∃ s, (log_event rp detected alert_type device_id (with_effect received w)).1 = Ok s ∧
       fall_event rp (JsonObject data) w =
         (Ok (Response (JObject {[ "status" := PStr "success";
                                   "message" := PStr "Event logged successfully";
                                   "sms_alert" := PStr s ]}) 200),
          (log_event rp detected alert_type device_id (with_effect received w)).2).
Proof.
  pose proof (log_event_runs rp (with_effect received w) detected alert_type device_id) as H.
  cbv zeta in H. destruct H as (pre & post & Hrun & _).
  eexists. rewrite Hrun. split; [reflexivity|].
  unfold fall_event. apply try_except_ok.
  erewrite bind_ok by reflexivity. fold detected alert_type device_id.
  erewrite bind_ok by reflexivity. fold received.
  erewrite bind_ok by exact Hrun. reflexivity.
Qed.
End Report.

Lemma fall_event_unusable rp w msg :
  fall_event rp (Unusable msg) w =
    (Ok (Response (JObject {[ "status" := PStr "error"; "message" := PStr msg ]}) 500),
     with_effect (Stdout ("Error processing fall event: " +:+ msg)) w).
Proof. reflexivity. Qed.

(** ** The CSV reader *)


Lemma add_missing_columns_prefix (e : row) :
  ∃ suffix, add_missing_columns e = e ++ suffix.
Proof.
  unfold add_missing_columns.
  destruct (length e <? 4)%nat;
    [destruct (length (e ++ ["unknown"]) <? 5)%nat|destruct (length e <? 5)%nat].
  - exists ["unknown"; "No"]. by rewrite <- app_assoc.
  - by exists ["unknown"].
  - by exists ["No"].
  - exists []. by rewrite app_nil_r.
Qed.

Lemma add_missing_columns_three (e : row) :
  (3 ≤ length (add_missing_columns e))%nat ↔ e ≠ [].
Proof.
  unfold add_missing_columns.
  destruct e as [|c0 [|c1 [|c2 [|c3 [|c4 rest]]]]]; simpl; split; (done || lia).
Qed.

Lemma get_events_from_csv_runs (w : world) :
  get_events_from_csv w =
    (match csv_file w with
     | None => Ok []
     | Some file =>
         match read_rows file with
         | [] => Raise StopIteration
         | _ :: events => Ok (add_missing_columns <$> take 20 (reverse events))
         end
     end, w).
Proof.
  unfold get_events_from_csv. erewrite bind_ok by reflexivity.
  destruct (csv_file w) as [file|]; [|done].
  by destruct (read_rows file).
Qed.

(** Converting rows reads no state and leaves none behind. *)
Lemma csv_event_pure (e : row) (w w' : world) :
  csv_event e w = ((csv_event e w').1, w).
Proof.
  unfold csv_event.
  destruct (e !! 0%nat), (e !! 1%nat), (e !! 2%nat); reflexivity.
Qed.

Lemma csv_event_ok (e : row) (w : world) (d : dict) :
  (csv_event e w).1 = Ok d →
  (3 ≤ length e)%nat ∧
  d !! "timestamp" = PStr <$> e !! 0%nat ∧
  d !! "detection" = PStr <$> e !! 1%nat ∧
  d !! "alert_type" = PStr <$> e !! 2%nat ∧
  d !! "device_id" = PStr <$> e !! 3%nat ∧
  d !! "sms_sent" = PStr <$> e !! 4%nat.
Proof.
  unfold csv_event.
  destruct e as [|c0 [|c1 [|c2 [|c3 [|c4 rest]]]]]; simpl; try discriminate;
    intros [= <-]; (split; [lia|]); repeat split.
Qed.


Lemma mapM_csv_event_const (l : list row) :
  ∃ res, ∀ w : world, mapM csv_event l w = (res, w).
Proof.
  induction l as [|e l [res IH]]; [by eexists|]. simpl.
  unfold mbind, M_bind.
  destruct (csv_event e (fresh_world false false)).1 as [d|x] eqn:He.
  - destruct res as [ds|x].
    + exists (Ok (d :: ds)). intros w.
      by rewrite (csv_event_pure e w (fresh_world false false)), He, IH.
    + exists (Raise x). intros w.
      by rewrite (csv_event_pure e w (fresh_world false false)), He, IH.
  - exists (Raise x). intros w.
    by rewrite (csv_event_pure e w (fresh_world false false)), He.
Qed.

Lemma mapM_csv_event_pure (l : list row) (w w' : world) :
  mapM csv_event l w = ((mapM csv_event l w').1, w).
Proof. destruct (mapM_csv_event_const l) as [res H]. by rewrite !H. Qed.

Lemma mapM_csv_event_ok (l : list row) (w : world) (ds : list dict) :
  (mapM csv_event l w).1 = Ok ds →
  Forall2 (λ e d, (csv_event e w).1 = Ok d) l ds.
Proof.
  revert ds. induction l as [|e l IH]; intros ds; simpl.
  - intros [= <-]. constructor.
  - rewrite bind_eq, (csv_event_pure e w w).
    destruct (csv_event e w).1 as [d|x] eqn:He; [|discriminate].
    rewrite bind_eq, (mapM_csv_event_pure l w w).
    destruct (mapM csv_event l w).1 as [ds'|x]; [|discriminate].
    intros [= <-]. constructor; [done|by apply IH].
Qed.


Lemma events_from_csv_pure (w w' : world) :
  csv_file w = csv_file w' →
  events_from_csv w = ((events_from_csv w').1, w).
Proof.
  intros Hf. unfold events_from_csv, mbind, M_bind.
  rewrite !get_events_from_csv_runs, <- Hf.
  destruct (csv_file w) as [file|]; [|reflexivity].
  destruct (read_rows file) as [|h evs]; [reflexivity|].
  destruct (mapM_csv_event_const (add_missing_columns <$> take 20 (reverse evs)))
    as [res H].
  by rewrite !H.
Qed.

Lemma events_from_csv_runs (w : world) :
  (events_from_csv w).1 =
    match csv_file w with
    | None => Ok []
    | Some file =>
        match read_rows file with
        | [] => Raise StopIteration
        | _ :: events =>
            (mapM csv_event (add_missing_columns <$> take 20 (reverse events)) w).1
        end
    end.
Proof.
  unfold events_from_csv. rewrite bind_eq, get_events_from_csv_runs.
  destruct (csv_file w) as [file|]; [|done].
  by destruct (read_rows file).
Qed.


(** ** GET /events and GET /status *)

(** The two read paths of [/events]. *)
Lemma events_primary (rp : replies) (w : world) :
  MONGO_AVAILABLE w = true → find_reply rp = None →
  events rp w =
    (Ok (Response (JArray (mongo_event <$>
           take 20 (merge_sort newer_eq (events_collection w)))) 200),
     with_effect MongoFind w).
Proof.
  destruct w as [tw mg from_ to file coll es]. simpl. intros -> Hfind.
  run. by rewrite Hfind.
Qed.

Lemma events_fallback (rp : replies) (w : world) :
  MONGO_AVAILABLE w = false ∨ is_Some (find_reply rp) →
  (events rp w).1 = Ok (csv_answer (events_from_csv w).1).
Proof.
  destruct w as [tw mg from_ to file coll es]. simpl. intros Hpath.
  set (w0 := World tw mg from_ to file coll es).
  unfold events, find_sort_limit, try_except, print, emit, read, raise,
    mbind, M_bind, mret, M_ret, with_effect. simpl.
  destruct mg.
  - destruct Hpath as [?|[msg Hfind]]; [done|]. rewrite Hfind. simpl.
    match goal with |- context [events_from_csv ?w1] =>
      rewrite (events_from_csv_pure w1 w0) by reflexivity end.
    by destruct (events_from_csv w0).1.
  - rewrite (events_from_csv_pure _ w0) by reflexivity.
    by destruct (events_from_csv w0).1.
Qed.


(** The count the status object reports: the collection's when the primary
    is available and answers, else the file's lines less the header line,
    else zero. *)
Lemma api_status_runs (rp : replies) (w : world) :
  ∃ w' n,
    api_status rp w =
      (Ok (Response (JObject
         {[ "status" := PStr "online";
            "time" := time_time rp;
            "timezone" := PStr TIMEZONE;
            "records_count" := PInt n;
            "database" := PStr (if MONGO_AVAILABLE w then "mongodb" else "csv");
            "mongo_status" := PStr (if MONGO_AVAILABLE w then "connected" else "disconnected");
            "twilio_status" := PStr (if TWILIO_AVAILABLE w then "connected" else "disconnected") ]})
         200), w') ∧
    n = (if MONGO_AVAILABLE w && bool_decide (count_reply rp = None)
         then Z.of_nat (length (events_collection w))
         else match csv_file w with
              | Some file => Z.of_nat (count_lines file) - 1
              | None => 0
              end).
Proof.
  run. destruct (MONGO_AVAILABLE w); simpl.
  - destruct (count_reply rp); simpl.
    + destruct (csv_file w); simpl; eexists _, _; split; reflexivity.
    + eexists _, _; split; reflexivity.
  - destruct (csv_file w); simpl; eexists _, _; split; reflexivity.
Qed.

(** ** Order *)

Global Instance key_ge_total : Total key_ge.
Proof. intros [x|] [y|]; simpl; try tauto. lia. Qed.

Global Instance key_ge_trans : Transitive key_ge.
Proof. intros [x|] [y|] [z|]; simpl; try tauto. lia. Qed.

Global Instance newer_eq_total : Total newer_eq.
Proof. intros d1 d2. apply key_ge_total. Qed.

Global Instance newer_eq_trans : Transitive newer_eq.
Proof. intros d1 d2 d3. apply key_ge_trans. Qed.

Lemma Sorted_take {A} (R : relation A) (l : list A) (n : nat) :
  Sorted R l → Sorted R (take n l).
Proof.
  intros Hs. revert n. induction Hs as [|x l Hs IH Hd]; intros [|n]; simpl;
    try constructor; [apply IH|].
  destruct Hd as [|y l' Hxy]; destruct n; simpl; by constructor.
Qed.

Lemma Sorted_Forall2 {A B} (P : A → B → Prop) (R : relation A) (R' : relation B)
    (l : list A) (k : list B) :
  (∀ a b c d, P a c → P b d → R a b → R' c d) →
  Forall2 P l k → Sorted R l → Sorted R' k.
Proof.
  intros HR HP. induction HP as [|a c l k Hac Hlk IH]; intros Hs; [constructor|].
  apply Sorted_inv in Hs as [Hs Hd]. constructor; [by apply IH|].
  destruct Hlk as [|b d l k Hbd Hlk]; constructor.
  apply HdRel_inv in Hd. eauto.
Qed.



Lemma universal_newlines_no_cr (s : string) :
  CR ∉ list_ascii_of_string s → universal_newlines s = s.
Proof.
  induction s as [|c s IH]; [done|]. simpl. intros Hno.
  destruct (Ascii.eqb c CR) eqn:Hc.
  - apply Ascii.eqb_eq in Hc as ->. destruct Hno. left.
  - rewrite IH; [done|]. intros Hin. apply Hno. by right.
Qed.



(** * The claims *)

(** ** Notification rule *)


(** ** Persistence under primary-store failure *)

(** C2.  Whatever the health of the primary store (flag set or not, insert
    accepted or raising), [log_event] returns; it has appended the row to
    the CSV file, and that append is the first store effect, before any
    call to the database; an insert that raises is caught, leaves a line on
    standard output and the collection unchanged; and POST /fall_event on a
    JSON object answers 200 with status "success". *)
Theorem csv_write_first_primary_failure_swallowed (rp : replies) (w : world)
    (detection alert_type device_id : pyval) (data : dict) :
  let run := log_event rp detection alert_type device_id w in
  (∃ s, returned run = Some s) ∧
  (∃ (r : row) pre post,
      csv_file run.2 = Some (default [] (csv_file w) ++ [r]) ∧
      performed w run.2 = pre ++ CsvAppend r :: post ∧
      existsb is_mongo pre = false ∧ existsb is_csv_append pre = false ∧
      existsb is_csv_append post = false) ∧
  (∀ msg, MONGO_AVAILABLE w = true → insert_reply rp = inr msg →
      Stdout ("Error saving to MongoDB: " +:+ msg) ∈ performed w run.2 ∧
      events_collection run.2 = events_collection w) ∧
  (∃ resp, returned (fall_event rp (JsonObject data) w) = Some resp ∧
           status_code resp = 200%nat ∧
           response_field resp "status" = Some (PStr "success")).
Proof.
  pose proof (log_event_runs rp w detection alert_type device_id) as H.
  cbv zeta in *. destruct H as (pre & post & Hrun & Hpre & Hpost).
  rewrite Hrun. unfold returned. simpl.
  rewrite (performed_app w _ (pre ++ CsvAppend _ :: post)) by reflexivity.
  split; [by eexists|]. split; [|split].
  - eexists _, pre, post. split; [reflexivity|]. split; [reflexivity|].
    assert (Hq : ∀ es, forallb (λ e, negb (is_send_sms e || is_mongo e || is_csv_append e)) es = true →
                       existsb is_mongo es = false ∧ existsb is_csv_append es = false).
    { induction es as [|e es IH]; simpl; [done|].
      intros [He Hes]%andb_true_iff. destruct (IH Hes) as [-> ->].
      destruct e; simpl in *; done. }
    destruct (truth detection && eq_str alert_type "real alert").
    + destruct Hpre as (es & -> & Hes & _). simpl.
      destruct (Hq es Hes) as [-> ->].
      subst post. destruct (MONGO_AVAILABLE w); done.
    + subst pre post. destruct (MONGO_AVAILABLE w); done.
  - intros msg Hav Hins. rewrite Hav, Hins in *. subst post.
    split; [|done]. apply elem_of_app. right. do 2 right. left.
  - destruct (fall_event_runs rp w data) as (s & _ & ->).
    eexists. split; [reflexivity|]. done.
Qed.

(** ** Failures inside the store *)



(** ** An unavailable gateway *)

(** C4 (as the code has it).  For a report with [detect] true and [type]
    "real alert": when the gateway failed to initialise, the provider is
    not contacted, the gateway returns false, and the persisted [sms_sent]
    is "Failed"; when the gateway is initialised and the provider raises,
    the provider was contacted and the persisted [sms_sent] is "Failed" as
    well; "Yes" is persisted when the provider accepts.  So "Failed" covers
    both an unavailable gateway and a provider error. *)
Theorem unavailable_gateway_persists_Failed (rp : replies) (w : world)
    (device_id : pyval) :
  let w' := (log_event rp (PBool true) (PStr "real alert") device_id w).2 in
  (TWILIO_AVAILABLE w = false →
     returned (send_sms_alert rp device_id (PStr "real alert") w) = Some false ∧
     provider_contacted (performed w w') = false ∧
     persisted_sms_sent w w' "Failed") ∧
  (TWILIO_AVAILABLE w = true → provider_accepts rp = false →
     returned (send_sms_alert rp device_id (PStr "real alert") w) = Some false ∧
     provider_contacted (performed w w') = true ∧
     persisted_sms_sent w w' "Failed") ∧
  (TWILIO_AVAILABLE w = true → provider_accepts rp = true →
     returned (send_sms_alert rp device_id (PStr "real alert") w) = Some true ∧
     provider_contacted (performed w w') = true ∧
     persisted_sms_sent w w' "Yes").
Proof.
  pose proof (log_event_persists rp w (PBool true) (PStr "real alert") device_id) as H.
  cbv zeta in *. destruct H as (s & _ & _ & Hprov & Hp & ->). simpl in *.
  destruct (send_sms_alert_returns rp w device_id (PStr "real alert"))
    as (ok & es & -> & -> & _).
  unfold returned. cbn [fst].
  destruct (TWILIO_AVAILABLE w), (provider_accepts rp); simpl in *;
    (split; [|split]); intros; try discriminate;
    (split; [reflexivity|split; [assumption|assumption]]).
Qed.

Lemma unavailable_gateway_persists_Failed_witness :
  let w := fresh_world false false in
  let w' := (log_event sample_replies (PBool true) (PStr "real alert") (PStr "esp-7") w).2 in
  TWILIO_AVAILABLE w = false ∧
  returned (send_sms_alert sample_replies (PStr "esp-7") (PStr "real alert") w) = Some false ∧
  provider_contacted (performed w w') = false ∧
  persisted_sms_sent w w' "Failed".
Proof.
  split; [reflexivity|].
  apply (proj1 (unavailable_gateway_persists_Failed sample_replies
                  (fresh_world false false) (PStr "esp-7"))).
  reflexivity.
Defined.

(** C4 fails as stated: with the gateway unavailable, the real alert is
    recorded as "Failed", not "No", although no send was attempted. *)
Lemma unavailable_gateway_does_not_persist_No :
  let w := fresh_world false false in
  let w' := (log_event sample_replies (PBool true) (PStr "real alert") (PStr "esp-7") w).2 in
  TWILIO_AVAILABLE w = false ∧
  provider_contacted (performed w w') = false ∧
  csv_file w' = Some [header_row;
                      ["2024-05-01 10:00:00 IST"; "True"; "real alert"; "esp-7"; "Failed"]] ∧
  ¬ persisted_sms_sent w w' "No".
Proof.
  repeat split.
  intros [(r & Hfile & _ & Hcell) _]. vm_compute in Hfile.
  injection Hfile as <-. discriminate.
Qed.

(** ** Missing and wrong-typed fields *)



(** ** Legacy rows *)




(** ** Order of what is read back *)

Section Order.
(** Any relation on timestamp texts: "not later than", or "earlier than"
    for the strict reading. *)
Variable not_later : relation string.

Let rows_ascending : relation row :=
  λ a b, not_later (row_timestamp a) (row_timestamp b).

Lemma fallback_records_order (w : world) (shown : list row) (ds : list dict) :
  (mapM csv_event (add_missing_columns <$> shown) w).1 = Ok ds →
  Forall2 (λ (e : row) (d : dict), d !! "timestamp" = Some (PStr (row_timestamp e)))
          shown ds ∧
  (Sorted (flip rows_ascending) shown → Sorted (flip (by_timestamp not_later)) ds).
Proof.
  intros Hm. apply mapM_csv_event_ok, Forall2_fmap_l in Hm.
  assert (Hts : Forall2 (λ (e : row) (d : dict),
                   d !! "timestamp" = Some (PStr (row_timestamp e))) shown ds).
  { eapply Forall2_impl; [exact Hm|]. simpl. intros e d Hd.
    apply csv_event_ok in Hd as (Hlen & Ht & _).
    apply add_missing_columns_three in Hlen.
    rewrite Ht. destruct (add_missing_columns_prefix e) as [sfx ->].
    by destruct e. }
  split; [exact Hts|]. intros Hsorted.
  eapply (Sorted_Forall2 _ (flip rows_ascending)); [|exact Hts|exact Hsorted].
  intros a b c d Ha Hb Hab. by exists (row_timestamp b), (row_timestamp a).
Qed.

(** The file stays in ascending order of timestamp while the clock does
    not run backwards: appending keeps the order when the new reading is
    not before the last row's. *)
Lemma log_event_keeps_file_ascending (rp : replies) (w : world)
    (detection alert_type device_id : pyval) (hdr : row) (rows : list row) :
  csv_file w = Some (hdr :: rows) →
  Sorted rows_ascending (read_rows rows) →
  (∀ r, last (read_rows rows) = Some r →
        not_later (row_timestamp r) (universal_newlines (now_str rp))) →
  ∃ r, csv_file (log_event rp detection alert_type device_id w).2 =
         Some (hdr :: rows ++ [r]) ∧
       Sorted rows_ascending (read_rows (rows ++ [r])).
Proof.
  intros Hfile Hsorted Hclock.
  pose proof (log_event_runs rp w detection alert_type device_id) as H.
  cbv zeta in H. destruct H as (pre & post & -> & _).
  cbn [snd csv_file]. rewrite Hfile. eexists. split; [reflexivity|].
  unfold read_rows. rewrite fmap_app. apply Sorted_snoc; [exact Hsorted|].
  fold (read_rows rows).
  destruct (read_rows rows) as [|r0 rs] eqn:Hr using rev_ind; [constructor|].
  constructor. apply Hclock. by rewrite last_snoc.
Qed.

End Order.


(** ** Appending, then reading back *)

Section ReadBack.
Variables (rp rp' : replies) (w : world).
Variables (detect : bool) (alert_type device_id : string).

Let w' : world :=
  (log_event rp (PBool detect) (PStr alert_type) (PStr device_id) w).2.




End ReadBack.



(** ** The status object *)

(** C9 (as the code has it).  GET /status answers 200 with an object whose
    [status] is "online", whose [time] is the reading of [time.time()],
    whose [timezone] is the configured zone name, whose [records_count] is
    an integer, whose [database] is "mongodb" or "csv", and whose
    [mongo_status] and [twilio_status] are "connected" or "disconnected",
    each following its availability flag. *)
Theorem api_status_object (rp : replies) (w : world) :
  ∃ resp n,
    returned (api_status rp w) = Some resp ∧ status_code resp = 200%nat ∧
    response_field resp "status" = Some (PStr "online") ∧
    response_field resp "time" = Some (time_time rp) ∧
    response_field resp "timezone" = Some (PStr TIMEZONE) ∧
    response_field resp "records_count" = Some (PInt n) ∧
    response_field resp "database" =
      Some (PStr (if MONGO_AVAILABLE w then "mongodb" else "csv")) ∧
    response_field resp "mongo_status" =
      Some (PStr (if MONGO_AVAILABLE w then "connected" else "disconnected")) ∧
    response_field resp "twilio_status" =
      Some (PStr (if TWILIO_AVAILABLE w then "connected" else "disconnected")).
Proof.
  destruct (api_status_runs rp w) as (w' & n & -> & _).
  eexists _, n. repeat split.
Qed.

(** C9 fails as stated: with both services up, [database] reads "mongodb",
    which is neither "primary" nor "fallback", and the object has no field
    named [primary_status] or [notification_status]. *)
Lemma api_status_has_no_primary_status :
  ∃ resp,
    returned (api_status sample_replies (fresh_world true true)) = Some resp ∧
    response_field resp "database" = Some (PStr "mongodb") ∧
    response_field resp "database" ≠ Some (PStr "primary") ∧
    response_field resp "database" ≠ Some (PStr "fallback") ∧
    response_field resp "primary_status" = None ∧
    response_field resp "notification_status" = None.
Proof. eexists. repeat split; discriminate. Qed.

(** ** Response and record agree *)

(** C10.  Whenever POST /fall_event answers 200, the [sms_alert] of the
    response is the [sms_sent] cell of the row just appended to the CSV
    file and the [sms_sent] of the document handed to the database, if one
    was. *)
Theorem response_sms_alert_is_persisted (rp : replies) (w : world)
    (req : request_body) (resp : response) :
  returned (fall_event rp req w) = Some resp →
  status_code resp = 200%nat →
  ∃ s, response_field resp "sms_alert" = Some (PStr s) ∧
       persisted_sms_sent w (fall_event rp req w).2 s.
Proof.
  destruct req as [data|msg]; [|by rewrite fall_event_unusable; intros [= <-]].
  destruct (fall_event_runs rp w data) as (s & Hs & ->).
  intros [= <-] _. exists s. split; [done|]. simpl.
  set (w0 := with_effect _ w) in *.
  set (detected := get data "detect" _) in *.
  set (alert_type := get data "type" _) in *.
  set (device_id := get data "device_id" _) in *.
  pose proof (log_event_persists rp w0 detected alert_type device_id) as H.
  cbv zeta in H. destruct H as (s' & Hs' & _ & _ & [Hrow Hdoc] & _).
  rewrite Hs in Hs'. injection Hs' as <-.
  pose proof (log_event_runs rp w0 detected alert_type device_id) as H.
  cbv zeta in H. destruct H as (pre & post & Hrun & _).
  split; [exact Hrow|].
  intros doc Hin. apply Hdoc.
  rewrite (performed_trans w w0 _ [Stdout
    ("Received fall event: Detected=" +:+ str detected +:+ ", Type=" +:+
     str alert_type +:+ ", Device=" +:+ str device_id)]) in Hin.
  - apply elem_of_cons in Hin as [Hin|Hin]; [done|exact Hin].
  - reflexivity.
  - rewrite Hrun. simpl. by eexists.
Qed.

Lemma response_sms_alert_is_persisted_witness :
  let w := fresh_world true true in
  let run := fall_event sample_replies (JsonObject real_alert_report) w in
  ∃ resp, returned run = Some resp ∧ status_code resp = 200%nat ∧
          response_field resp "sms_alert" = Some (PStr "Yes") ∧
          ∃ s, response_field resp "sms_alert" = Some (PStr s) ∧
               persisted_sms_sent w run.2 s.
Proof.
  eexists. split; [reflexivity|]. split; [reflexivity|]. split; [reflexivity|].
  apply (response_sms_alert_is_persisted sample_replies (fresh_world true true)
           (JsonObject real_alert_report)); reflexivity.
Defined.

(** ** Scenarios of the specification, run on the model *)

(** Start-up creates the file with its header when there is none, and
    leaves an existing file as it is. *)
Example initialize_csv_creates_header :
  csv_file (initialize_csv (with_csv None (fresh_world true true))).2 = Some [header_row] ∧
  csv_file (initialize_csv legacy_file_world).2 = csv_file legacy_file_world ∧
  csv_file (initialize_csv empty_file_world).2 = Some [].
Proof. repeat split. Qed.

(** What the conditions of C8 exclude, besides the two cases above: a
    carriage return in a field comes back as a line feed on the fallback
    path, and on the primary path an event stamped by a clock that is
    behind the stored events is not the first one returned. *)
Example carriage_return_read_back_as_line_feed :
  let w' := (log_event sample_replies (PBool true) (PStr "real alert")
               (PStr device_id_with_cr) (fresh_world true false)).2 in
  ∃ e evs, returned (get_events_from_csv w') = Some (e :: evs) ∧
           e !! 3%nat = Some (String "a" (String LF "b")) ∧
           e !! 3%nat ≠ Some device_id_with_cr.
Proof. eexists _, _. repeat split. discriminate. Qed.

Example stale_clock_event_not_first :
  let w' := (log_event stale_clock_replies (PBool true) (PStr "real alert") (PStr "esp-7")
               world_with_history).2 in
  ∃ resp d ds, returned (events sample_replies w') = Some resp ∧
               records resp = d :: ds ∧ length ds = 1%nat ∧
               d !! "device_id" = Some (PStr "esp-3").
Proof. eexists _, _, _. repeat split. Qed.

(** A first report logged when the file does not exist yet creates the file
    without a header line, and the reader then takes that row for the
    header. *)
Example first_row_taken_for_header :
  let w := with_csv None (fresh_world true false) in
  let w' := (log_event sample_replies (PBool true) (PStr "real alert") (PStr "esp-7") w).2 in
  csv_file w' = Some [["2024-05-01 10:00:00 IST"; "True"; "real alert"; "esp-7"; "Yes"]] ∧
  returned (get_events_from_csv w') = Some [].
Proof. split; reflexivity. Qed.

(** The scenarios of the specification, run on the model. *)
Example scenario_real_alert :
  let run := fall_event sample_replies (JsonObject real_alert_report) (fresh_world true false) in
  ∃ resp resp' d ds,
    returned run = Some resp ∧
    response_field resp "status" = Some (PStr "success") ∧
    response_field resp "sms_alert" = Some (PStr "Yes") ∧
    returned (events sample_replies run.2) = Some resp' ∧
    records resp' = d :: ds ∧
    d !! "device_id" = Some (PStr "esp-7") ∧ d !! "sms_sent" = Some (PStr "Yes").
Proof. eexists _, _, _, _. repeat split. Qed.

Example scenario_fields_omitted :
  let run := fall_event sample_replies (JsonObject {[ "detect" := PBool false ]})
               (fresh_world true false) in
  csv_file run.2 =
    Some [header_row; ["2024-05-01 10:00:00 IST"; "False"; "unknown"; "unknown"; "No"]].
Proof. reflexivity. Qed.

Example scenario_primary_down :
  let w := fresh_world true false in
  let run := fall_event sample_replies (JsonObject real_alert_report) w in
  (∃ resp, returned (api_status sample_replies w) = Some resp ∧
           response_field resp "database" = Some (PStr "csv")) ∧
  (∃ resp, returned run = Some resp ∧ status_code resp = 200%nat) ∧
  length (default [] (csv_file run.2)) = 2%nat.
Proof. repeat split; eexists; repeat split. Qed.


(** A body that is not a JSON object is answered with the error object. *)
Example non_object_body_answers_500 :
  let run := fall_event sample_replies (Unusable "'list' object has no attribute 'get'")
               (fresh_world true true) in
  ∃ resp, returned run = Some resp ∧ status_code resp = 500%nat ∧
          response_field resp "status" = Some (PStr "error") ∧
          csv_file run.2 = Some [header_row].
Proof. eexists. repeat split. Qed.

(** On an empty file the reader's exception leaves the dashboard handler,
    while [/events] turns it into the error object. *)
Example empty_file_at_the_handlers :
  raised (index sample_replies empty_file_world) = Some StopIteration ∧
  ∃ resp, returned (events sample_replies empty_file_world) = Some resp ∧
          status_code resp = 500%nat.
Proof. split; [reflexivity|]. eexists. split; reflexivity. Qed.

(** A primary that is up at start-up and then fails on every call: the
    report is still acknowledged and kept in the file, the failure is only
    printed, and the status and the event list come from the file. *)
Example primary_fails_after_start_up :
  let w := fresh_world true true in
  let run := fall_event primary_down_replies (JsonObject real_alert_report) w in
  (∃ resp, returned run = Some resp ∧ status_code resp = 200%nat ∧
           response_field resp "sms_alert" = Some (PStr "Yes")) ∧
  csv_file run.2 = Some [header_row;
                         ["2024-05-01 10:00:00 IST"; "True"; "real alert"; "esp-7"; "Yes"]] ∧
  events_collection run.2 = [] ∧
  Stdout "Error saving to MongoDB: connection reset" ∈ performed w run.2 ∧
  (∃ resp, returned (api_status primary_down_replies run.2) = Some resp ∧
           response_field resp "records_count" = Some (PInt 1)) ∧
  (∃ resp d, returned (events primary_down_replies run.2) = Some resp ∧
             records resp = [d] ∧ d !! "device_id" = Some (PStr "esp-7")).
Proof.
  split; [eexists; repeat split|]. split; [reflexivity|]. split; [reflexivity|].
  split; [vm_compute; do 6 right; left|].
  split; [eexists; split; reflexivity|].
  eexists _, _. repeat split.
Qed.

(** * Further properties of the code *)

(** ** One call of [log_event], effect by effect *)

Lemma send_sms_alert_trace (rp : replies) (w : world) (device_id alert_type : pyval) :
  send_sms_alert rp device_id alert_type w =
    (Ok (TWILIO_AVAILABLE w && provider_accepts rp),
     World (TWILIO_AVAILABLE w) (MONGO_AVAILABLE w) (TWILIO_FROM_NUMBER w)
           (EMERGENCY_CONTACT w) (csv_file w) (events_collection w)
           (effects w ++ CallSendSms device_id alert_type ::
              gateway_trace rp w device_id alert_type)).
Proof.
  unfold provider_accepts, gateway_trace. run.
  destruct (TWILIO_AVAILABLE w); simpl;
    [destruct (twilio_reply rp) as [sid|msg]; simpl|]; by assoc.
Qed.

Lemma log_event_world (rp : replies) (w : world) (detection alert_type device_id : pyval) :
  log_event rp detection alert_type device_id w =
    (Ok (sms_outcome rp w detection alert_type),
     World (TWILIO_AVAILABLE w) (MONGO_AVAILABLE w) (TWILIO_FROM_NUMBER w)
           (EMERGENCY_CONTACT w)
           (Some (default [] (csv_file w) ++ [logged_row rp w detection alert_type device_id]))
           (if MONGO_AVAILABLE w then
              match insert_reply rp with
              | inl id => events_collection w ++
                            [<["_id" := id]> (logged_doc rp w detection alert_type device_id)]
              | inr _ => events_collection w
              end
            else events_collection w)
           (effects w ++ log_event_trace rp w detection alert_type device_id)).
Proof.
  unfold log_event_trace, logged_doc, logged_row, sms_outcome.
  unfold log_event. unfold mbind at 1 2. unfold M_bind at 1 2.
  unfold get_current_timestamp, mret at 1, M_ret at 1.
  destruct (truth detection && eq_str alert_type "real alert").
  - unfold mbind at 1, M_bind at 1. rewrite send_sms_alert_trace.
    run. destruct (MONGO_AVAILABLE w); [destruct (insert_reply rp)|];
      destruct (TWILIO_AVAILABLE w && provider_accepts rp); simpl; assoc; reflexivity.
  - run. destruct (MONGO_AVAILABLE w); [destruct (insert_reply rp)|];
      simpl; assoc; reflexivity.
Qed.

Lemma log_event_performed (rp : replies) (w : world) (detection alert_type device_id : pyval) :
  performed w (log_event rp detection alert_type device_id w).2 =
    log_event_trace rp w detection alert_type device_id.
Proof. rewrite log_event_world. by apply performed_app. Qed.

(** ** At most one message, and before the row is written *)

(** X1.  One call of [log_event] contacts the SMS provider at most once:
    exactly once, from the configured number to the configured emergency
    contact and with the body that names the device and the alert type,
    when [detection] is truthy, [alert_type] is "real alert" and the gateway
    was initialised; not at all otherwise. *)
Theorem one_message_per_real_alert (rp : replies) (w : world)
    (detection alert_type device_id : pyval) :
  provider_calls (performed w (log_event rp detection alert_type device_id w).2) =
    if truth detection && eq_str alert_type "real alert" && TWILIO_AVAILABLE w then
      [TwilioCreate (alert_body device_id alert_type) (TWILIO_FROM_NUMBER w)
                    (EMERGENCY_CONTACT w)]
    else [].
Proof.
  rewrite log_event_performed. unfold log_event_trace, gateway_trace, provider_calls.
  destruct (truth detection && eq_str alert_type "real alert"),
    (TWILIO_AVAILABLE w), (MONGO_AVAILABLE w); reflexivity.
Qed.

(** X2.  Whatever [log_event] does with the gateway and the provider is over
    before it writes the row: in the effects of one call everything before
    the CSV append is gateway business, and everything after it is the
    database insert and its printed line. *)
Theorem notification_precedes_persistence (rp : replies) (w : world)
    (detection alert_type device_id : pyval) :
  ∃ before after,
    performed w (log_event rp detection alert_type device_id w).2 =
      before ++ CsvAppend (logged_row rp w detection alert_type device_id) :: after ∧
    gateway_invoked before = truth detection && eq_str alert_type "real alert" ∧
    existsb is_mongo before = false ∧
    gateway_invoked after = false ∧ provider_contacted after = false ∧
    existsb is_mongo after = MONGO_AVAILABLE w.
Proof.
  rewrite log_event_performed. unfold log_event_trace, gateway_trace.
  eexists _, _. split; [reflexivity|].
  destruct (truth detection && eq_str alert_type "real alert"),
    (TWILIO_AVAILABLE w), (MONGO_AVAILABLE w); repeat split.
Qed.


(** ** Handlers that only read *)

Lemma keeps_ret {A} (a : A) : keeps_stores (mret a : M A).
Proof. by intros w. Qed.

Lemma keeps_raise {A} (e : exn) : keeps_stores (raise e : M A).
Proof. by intros w. Qed.

Lemma keeps_read {A} (f : world → A) : keeps_stores (read f).
Proof. by intros w. Qed.

Lemma keeps_emit (e : effect) : keeps_stores (emit e).
Proof. by intros w. Qed.

Lemma keeps_bind {A B} (m : M A) (f : A → M B) :
  keeps_stores m → (∀ a, keeps_stores (f a)) → keeps_stores (m ≫= f).
Proof.
  intros Hm Hf w. rewrite bind_eq. specialize (Hm w).
  destruct (m w) as [[a|e] w1]; simpl in *; [|done].
  by rewrite (Hf a w1).
Qed.

Lemma keeps_try_except {A} (m : M A) (h : exn → M A) :
  keeps_stores m → (∀ e, keeps_stores (h e)) → keeps_stores (try_except m h).
Proof.
  intros Hm Hh w. unfold try_except. specialize (Hm w).
  destruct (m w) as [[a|e] w1]; simpl in *; [done|].
  by rewrite (Hh e w1).
Qed.

Lemma keeps_mapM {A B} (f : A → M B) (l : list A) :
  (∀ a, keeps_stores (f a)) → keeps_stores (mapM f l).
Proof.
  intros Hf. induction l as [|a l IH]; [apply keeps_ret|].
  change (mapM f (a :: l)) with (f a ≫= λ y, mapM f l ≫= λ k, mret (y :: k)).
  apply keeps_bind; [apply Hf|]. intros y.
  apply keeps_bind; [apply IH|]. intros k. apply keeps_ret.
Qed.

Ltac keeps :=
  repeat first
    [ apply keeps_ret | apply keeps_raise | apply keeps_read | apply keeps_emit
    | apply keeps_bind; [|intros ?] | apply keeps_try_except; [|intros ?]
    | apply keeps_mapM; intros ?
    | match goal with
      | |- keeps_stores (match ?x with _ => _ end) => destruct x
      | |- keeps_stores (if ?x then _ else _) => destruct x
      end ].

Lemma keeps_get_events_from_csv : keeps_stores get_events_from_csv.
Proof. unfold get_events_from_csv. keeps. Qed.

Lemma keeps_find_sort_limit rp n : keeps_stores (find_sort_limit rp n).
Proof. unfold find_sort_limit. keeps. Qed.

Lemma keeps_csv_event e : keeps_stores (csv_event e).
Proof. unfold csv_event. keeps. Qed.

Lemma keeps_events rp : keeps_stores (events rp).
Proof.
  unfold events, events_from_csv, print.
  keeps; try apply keeps_find_sort_limit; try apply keeps_get_events_from_csv;
    try apply keeps_csv_event.
Qed.

Lemma keeps_index rp : keeps_stores (index rp).
Proof.
  unfold index, print.
  keeps; try apply keeps_find_sort_limit; try apply keeps_get_events_from_csv.
Qed.

Lemma keeps_api_status rp : keeps_stores (api_status rp).
Proof. unfold api_status, count_documents, csv_record_count. keeps. Qed.

(** X3.  The handlers of GET requests only read: after [/events],
    [/status], the dashboard or [/config], whether they answered or failed,
    the CSV file, the collection and the two availability flags are what
    they were. *)
Theorem get_handlers_only_read (rp : replies) (host : string) (w : world) :
  stores (events rp w).2 = stores w ∧
  stores (api_status rp w).2 = stores w ∧
  stores (index rp w).2 = stores w ∧
  stores (config host w).2 = stores w ∧
  stores (get_events_from_csv w).2 = stores w.
Proof.
  repeat split.
  - apply keeps_events.
  - apply keeps_api_status.
  - apply keeps_index.
  - apply keeps_get_events_from_csv.
Qed.

(** ** Requests one after another *)

Lemma fall_event_world (rp : replies) (w : world) (data : dict) :
  let detected := get data "detect" (PBool false) in
  let alert_type := get data "type" (PStr "unknown") in
  let device_id := get data "device_id" (PStr "unknown") in
  ∃ w', fall_event rp (JsonObject data) w =
          (Ok (Response (JObject {[ "status" := PStr "success";
                                    "message" := PStr "Event logged successfully";
                                    "sms_alert" := PStr (sms_outcome rp w detected alert_type) ]})
                        200), w') ∧
        TWILIO_AVAILABLE w' = TWILIO_AVAILABLE w ∧
        MONGO_AVAILABLE w' = MONGO_AVAILABLE w ∧
        csv_file w' =
          Some (default [] (csv_file w) ++ [logged_row rp w detected alert_type device_id]) ∧
        events_collection w' =
          (if MONGO_AVAILABLE w then
             match insert_reply rp with
             | inl id => events_collection w ++
                           [<["_id" := id]> (logged_doc rp w detected alert_type device_id)]
             | inr _ => events_collection w
             end
           else events_collection w) ∧
        performed w w' =
          Stdout ("Received fall event: Detected=" +:+ str detected +:+ ", Type=" +:+
                  str alert_type +:+ ", Device=" +:+ str device_id) ::
          log_event_trace rp w detected alert_type device_id.
Proof.
  cbv zeta. eexists. split.
  - unfold fall_event. apply try_except_ok.
    erewrite bind_ok by reflexivity. erewrite bind_ok by reflexivity.
    erewrite bind_ok by apply log_event_world. reflexivity.
  - repeat split. apply performed_app. simpl. by rewrite <- app_assoc.
Qed.

Lemma sms_alerts_cons (resp : response) (resps : list response) :
  sms_alerts (resp :: resps) =
    match response_field resp "sms_alert" with
    | Some v => v :: sms_alerts resps
    | None => sms_alerts resps
    end.
Proof. reflexivity. Qed.

Lemma sms_column_cons (r : row) (rows : list row) :
  sms_column (r :: rows) =
    match r !! 4%nat with
    | Some s => PStr s :: sms_column rows
    | None => sms_column rows
    end.
Proof. unfold sms_column. simpl. by destruct (r !! 4%nat). Qed.

Lemma stamps_cons (rp : replies) (req : request_body)
    (reqs : list (replies * request_body)) :
  stamps ((rp, req) :: reqs) =
    if is_json_object req then universal_newlines (now_str rp) :: stamps reqs
    else stamps reqs.
Proof. unfold stamps. simpl. by destruct (is_json_object req). Qed.

Lemma serve_runs (reqs : list (replies * request_body)) (w : world) :
  ∃ resps (rows : list row) docs w',
    serve reqs w = (Ok resps, w') ∧
    length resps = length reqs ∧
    TWILIO_AVAILABLE w' = TWILIO_AVAILABLE w ∧
    MONGO_AVAILABLE w' = MONGO_AVAILABLE w ∧
    default [] (csv_file w') = default [] (csv_file w) ++ rows ∧
    (is_Some (csv_file w) → is_Some (csv_file w')) ∧
    length rows = length (List.filter (λ r : replies * request_body, is_json_object r.2) reqs) ∧
    Forall (λ r : row, length r = 5%nat) rows ∧
    sms_alerts resps = sms_column rows ∧
    events_collection w' = events_collection w ++ docs ∧
    (length docs ≤ length rows)%nat ∧
    row_timestamp <$> read_rows rows = stamps reqs.
Proof.
  revert w. induction reqs as [|[rp [data|msg]] reqs IH]; intros w.
  - exists [], [], [], w. rewrite !app_nil_r. by repeat split.
  - destruct (fall_event_world rp w data)
      as (w1 & Hrun & Htw & Hmg & Hfile & Hcoll & _).
    destruct (IH w1) as (resps & rows & docs & w' & Hserve & Hlen & Htw' & Hmg' &
                         Hfile' & Hsome & Hrows & Hfive & Hsms & Hcoll' & Hdocs & Hts).
    set (detected := get data "detect" (PBool false)) in *.
    set (alert_type := get data "type" (PStr "unknown")) in *.
    set (device_id := get data "device_id" (PStr "unknown")) in *.
    eexists (_ :: resps), (logged_row rp w detected alert_type device_id :: rows),
            ((if MONGO_AVAILABLE w then
                match insert_reply rp with
                | inl id => [<["_id" := id]> (logged_doc rp w detected alert_type device_id)]
                | inr _ => []
                end
              else []) ++ docs), w'.
    split; [simpl; rewrite bind_eq, Hrun, bind_eq, Hserve; reflexivity|].
    split; [simpl; by rewrite Hlen|].
    split; [congruence|]. split; [congruence|].
    split; [rewrite Hfile', Hfile; simpl; by rewrite <- app_assoc|].
    split; [intros _; apply Hsome; rewrite Hfile; by eexists|].
    split; [simpl; by rewrite Hrows|].
    split; [by constructor|].
    split; [rewrite sms_alerts_cons, sms_column_cons, Hsms; reflexivity|].
    split.
    { rewrite Hcoll', Hcoll, app_assoc. f_equal.
      destruct (MONGO_AVAILABLE w); [destruct (insert_reply rp)|];
        by rewrite ?app_nil_r. }
    split.
    + rewrite length_app. simpl.
      destruct (MONGO_AVAILABLE w); [destruct (insert_reply rp)|]; simpl; lia.
    + rewrite stamps_cons. simpl. by rewrite <- Hts.
  - destruct (IH (with_effect (Stdout ("Error processing fall event: " +:+ msg)) w))
      as (resps & rows & docs & w' & Hserve & Hlen & Htw' & Hmg' &
          Hfile' & Hsome & Hrows & Hfive & Hsms & Hcoll' & Hdocs & Hts).
    eexists (_ :: resps), rows, docs, w'.
    split; [simpl; rewrite bind_eq, fall_event_unusable, bind_eq, Hserve; reflexivity|].
    split; [simpl; by rewrite Hlen|].
    rewrite stamps_cons. by repeat split.
Qed.


(** X5.  Over any sequence of POST /fall_event requests the answers and
    the file agree: the [sms_alert] values of the answers, in order, are the
    [sms_sent] column of the rows the requests appended (a request that was
    answered with the error object has no [sms_alert] and appended no
    row). *)
Theorem answers_match_sms_column (reqs : list (replies * request_body)) (w : world) :
  ∃ resps (rows : list row),
    returned (serve reqs w) = Some resps ∧
    default [] (csv_file (serve reqs w).2) = default [] (csv_file w) ++ rows ∧
    sms_alerts resps = sms_column rows ∧
    length (sms_column rows) = length rows.
Proof.
  destruct (serve_runs reqs w) as (resps & rows & docs & w' & -> & _ & _ & _ &
                                   Hfile & _ & _ & Hfive & Hsms & _).
  exists resps, rows. repeat split; try done.
  clear -Hfive. induction Hfive as [|r rows Hr _ IH]; [done|].
  rewrite sms_column_cons.
  destruct r as [|c0 [|c1 [|c2 [|c3 [|c4 rest]]]]]; simplify_eq/=. by rewrite IH.
Qed.

Lemma Sorted_of_fmap {A B} (f : A → B) (R : relation B) (l : list A) :
  Sorted R (f <$> l) → Sorted (λ a b, R (f a) (f b)) l.
Proof.
  induction l as [|a l IH]; [constructor|]. rewrite fmap_cons.
  intros [Hs Hd]%Sorted_inv. constructor; [by apply IH|].
  destruct l; constructor. by apply HdRel_inv in Hd.
Qed.

Section Chronological.
Variable not_later : relation string.

(** X6.  Starting from a file that holds its header and rows in ascending
    order of timestamp, and handling requests whose clock readings continue
    that order, GET /events on the fallback path answers with records in
    descending order of timestamp, whenever it answers 200. *)
Theorem served_reports_read_newest_first (reqs : list (replies * request_body))
    (rp : replies) (w : world) (hdr : row) (rows0 : list row) (resp : response) :
  csv_file w = Some (hdr :: rows0) →
  Sorted not_later ((row_timestamp <$> read_rows rows0) ++ stamps reqs) →
  MONGO_AVAILABLE w = false ∨ is_Some (find_reply rp) →
  returned (events rp (serve reqs w).2) = Some resp →
  status_code resp = 200%nat →
  Sorted (flip (by_timestamp not_later)) (records resp) ∧
  (length (records resp) = Nat.min 20 (length rows0 + length (stamps reqs)))%nat.
Proof.
  intros Hfile Hsorted Hpath.
  destruct (serve_runs reqs w) as (resps & rows & docs & w' & -> & _ & _ & Hmg &
                                   Hfile' & Hsome & _ & _ & _ & _ & _ & Hts).
  cbn [snd]. rewrite Hfile in Hfile', Hsome. cbn [default from_option id] in Hfile'.
  destruct Hsome as [file Hw']; [by eexists|]. rewrite Hw' in Hfile'.
  cbn [default from_option id] in Hfile'. subst file. rewrite <- app_comm_cons in Hw'.
  unfold returned. rewrite events_fallback by (by rewrite Hmg).
  rewrite events_from_csv_runs, Hw'. cbn [read_rows fmap list_fmap].
  fold (read_rows (rows0 ++ rows)).
  destruct (mapM csv_event _ w').1 as [ds|x] eqn:Hm; [|by intros [= <-]].
  intros [= <-] _. unfold records. cbn [csv_answer body].
  destruct (fallback_records_order not_later w' _ ds Hm) as [Hforall Hord].
  split.
  - apply Hord, Sorted_take, Sorted_reverse, Sorted_of_fmap.
    unfold read_rows in *. by rewrite fmap_app, fmap_app, Hts.
  - apply Forall2_length in Hforall. rewrite <- Hforall.
    rewrite length_take, length_reverse. unfold read_rows.
    rewrite length_fmap, length_app. f_equal. f_equal.
    rewrite <- Hts. unfold read_rows. by rewrite !length_fmap.
Qed.
End Chronological.


Lemma served_reports_read_newest_first_witness :
  ∃ resp,
    returned (events sample_replies (serve two_reports (fresh_world true false)).2) = Some resp ∧
    status_code resp = 200%nat ∧
    Sorted (flip (by_timestamp String.le)) (records resp) ∧
    length (records resp) = 2%nat.
Proof.
  eexists. split; [reflexivity|]. split; [reflexivity|].
  apply (served_reports_read_newest_first String.le two_reports sample_replies
           (fresh_world true false) header_row []).
  - reflexivity.
  - repeat constructor; by vm_compute.
  - by left.
  - reflexivity.
  - reflexivity.
Defined.

(** ** What GET /status counts *)

Lemma reported_count_eq (rp : replies) (w : world) :
  reported_count rp w =
    Some (PInt (if MONGO_AVAILABLE w && bool_decide (count_reply rp = None)
                then Z.of_nat (length (events_collection w))
                else match csv_file w with
                     | Some file => Z.of_nat (count_lines file) - 1
                     | None => 0
                     end)).
Proof.
  unfold reported_count. destruct (api_status_runs rp w) as (w' & n & -> & ->).
  reflexivity.
Qed.






(** X8.  On the primary path GET /status counts the documents of the
    collection, whatever the file holds: after one call of [log_event] the
    count is one more when the insert was accepted and unchanged when the
    insert raised, although the file has one more row in both cases. *)
Theorem primary_count_after_log_event (rp rp' : replies) (w : world)
    (detection alert_type device_id : pyval) :
  MONGO_AVAILABLE w = true → count_reply rp' = None →
  let w' := (log_event rp detection alert_type device_id w).2 in
  let n := Z.of_nat (length (events_collection w)) in
  reported_count rp' w = Some (PInt n) ∧
  reported_count rp' w' =
    Some (PInt (if insert_reply rp is inl _ then n + 1 else n)) ∧
  length (default [] (csv_file w')) = S (length (default [] (csv_file w))).
Proof.
  intros Hav Hcount. cbv zeta. rewrite !reported_count_eq, log_event_world.
  cbn [snd MONGO_AVAILABLE csv_file events_collection default from_option id].
  rewrite Hav, Hcount. simpl.
  split; [done|]. split.
  - destruct (insert_reply rp); [|done]. rewrite length_app. simpl. do 2 f_equal. lia.
  - rewrite length_app. simpl. lia.
Qed.

Lemma primary_count_after_log_event_witness :
  let w := fresh_world true true in
  reported_count sample_replies
    (log_event insert_fails_replies (PBool true) (PStr "real alert") (PStr "esp-7") w).2 =
    Some (PInt 0) ∧
  reported_count sample_replies
    (log_event sample_replies (PBool true) (PStr "real alert") (PStr "esp-7") w).2 =
    Some (PInt 1).
Proof.
  split.
  - apply (primary_count_after_log_event insert_fails_replies sample_replies
             (fresh_world true true) (PBool true) (PStr "real alert") (PStr "esp-7")
             eq_refl eq_refl).
  - apply (primary_count_after_log_event sample_replies sample_replies
             (fresh_world true true) (PBool true) (PStr "real alert") (PStr "esp-7")
             eq_refl eq_refl).
Defined.


(** ** Start-up *)

(** X9.  [initialize_csv] writes the header row exactly when the file is
    missing and otherwise leaves the world as it found it: a file that
    exists is never rewritten, be it empty or without a header.  Running it
    a second time does nothing, and the flags and the collection are never
    touched. *)
Theorem initialize_csv_creates_only_when_missing (w : world) :
  let w0 := (initialize_csv w).2 in
  csv_file w0 = Some (default [header_row] (csv_file w)) ∧
  (is_Some (csv_file w) → w0 = w) ∧
  initialize_csv w0 = (Ok (), w0) ∧
  TWILIO_AVAILABLE w0 = TWILIO_AVAILABLE w ∧
  MONGO_AVAILABLE w0 = MONGO_AVAILABLE w ∧
  events_collection w0 = events_collection w.
Proof.
  destruct w as [tw mg from_ to [file|] coll es]; cbv zeta.
  - by repeat split.
  - split; [done|]. split; [by intros [? [=]]|]. by repeat split.
Qed.

(** X10.  A store created by [initialize_csv] reads as empty everywhere on
    the fallback path: GET /events answers 200 with no record, the dashboard
    gets no row and GET /status counts zero. *)
Theorem initialised_store_reads_empty (rp : replies) (w : world) :
  csv_file w = None →
  MONGO_AVAILABLE w = false →
  let w0 := (initialize_csv w).2 in
  returned (events rp w0) = Some (Response (JArray []) 200) ∧
  returned (index rp w0) = Some [] ∧
  reported_count rp w0 = Some (PInt 0).
Proof.
  destruct w as [tw mg from_ to file coll es]. simpl. intros -> ->.
  by repeat split.
Qed.

Lemma initialised_store_reads_empty_witness :
  let w0 := (initialize_csv missing_file_world).2 in
  returned (events sample_replies w0) = Some (Response (JArray []) 200) ∧
  returned (index sample_replies w0) = Some [] ∧
  reported_count sample_replies w0 = Some (PInt 0).
Proof.
  apply (initialised_store_reads_empty sample_replies missing_file_world);
    reflexivity.
Defined.



(** ** POST /fall_event as a whole *)


(** ** The primary store and alerting *)

(** X13.  Whether the primary store is available, what it holds and how it
    answers has no influence on alerting or on the file: two runs of
    [log_event] that differ only in these return the same outcome, call the
    SMS provider in the same way and leave the same file. *)
Theorem primary_store_does_not_affect_alerting (rp1 rp2 : replies) (w1 w2 : world)
    (detection alert_type device_id : pyval) :
  now_str rp1 = now_str rp2 →
  twilio_reply rp1 = twilio_reply rp2 →
  TWILIO_AVAILABLE w1 = TWILIO_AVAILABLE w2 →
  TWILIO_FROM_NUMBER w1 = TWILIO_FROM_NUMBER w2 →
  EMERGENCY_CONTACT w1 = EMERGENCY_CONTACT w2 →
  csv_file w1 = csv_file w2 →
  let r1 := log_event rp1 detection alert_type device_id w1 in
  let r2 := log_event rp2 detection alert_type device_id w2 in
  r1.1 = r2.1 ∧
  csv_file r1.2 = csv_file r2.2 ∧
  provider_calls (performed w1 r1.2) = provider_calls (performed w2 r2.2).
Proof.
  intros Hnow Htw Hav Hfrom Hto Hfile. cbv zeta.
  rewrite !log_event_performed, !log_event_world. cbn [fst snd csv_file].
  unfold log_event_trace, gateway_trace, logged_row, sms_outcome, provider_accepts,
    provider_calls.
  rewrite Hnow, Htw, Hav, Hfrom, Hto, Hfile. repeat split.
  destruct (truth detection && eq_str alert_type "real alert"),
    (TWILIO_AVAILABLE w2), (MONGO_AVAILABLE w1), (MONGO_AVAILABLE w2); reflexivity.
Qed.

Lemma primary_store_does_not_affect_alerting_witness :
  let r1 := log_event sample_replies (PBool true) (PStr "real alert") (PStr "esp-7")
              (fresh_world true true) in
  let r2 := log_event primary_down_replies (PBool true) (PStr "real alert") (PStr "esp-7")
              (fresh_world true false) in
  r1.1 = r2.1 ∧ csv_file r1.2 = csv_file r2.2.
Proof.
  pose proof (primary_store_does_not_affect_alerting sample_replies primary_down_replies
                (fresh_world true true) (fresh_world true false)
                (PBool true) (PStr "real alert") (PStr "esp-7")
                eq_refl eq_refl eq_refl eq_refl eq_refl eq_refl) as (H1 & H2 & _).
  split; [exact H1|exact H2].
Defined.

(** ** GET /events: when it fails *)








(** ** The dashboard *)

(** The rows [index] hands to its template. *)
Lemma index_runs (rp : replies) (w : world) :
  (index rp w).1 =
    if MONGO_AVAILABLE w && bool_decide (find_reply rp = None) then
      Ok (mongo_row <$> take 20 (merge_sort newer_eq (events_collection w)))
    else
      match csv_file w with
      | None => Ok []
      | Some file =>
          match read_rows file with
          | [] => Raise StopIteration
          | _ :: events =>
              Ok ((λ r : row, PStr <$> r) <$>
                    (add_missing_columns <$> take 20 (reverse events)))
          end
      end.
Proof.
  destruct w as [tw mg from_ to file coll es].
  unfold index, find_sort_limit, get_events_from_csv, try_except, print, emit, read,
    raise, mbind, M_bind, mret, M_ret, with_effect. simpl.
  destruct mg; [destruct (find_reply rp)|]; simpl;
    (destruct file as [f|]; [|done]); by destruct (read_rows f).
Qed.



(** X16.  The dashboard and GET /events show the same events: whenever
    GET /events answers 200, the dashboard handler returns, with one row per
    record, in the same order, and cell for cell the fields of the record
    (the detection cell being the text of the record's [detection]). *)
Theorem dashboard_rows_match_api_records (rp : replies) (w : world) (resp : response) :
  returned (events rp w) = Some resp →
  status_code resp = 200%nat →
  ∃ rows,
    returned (index rp w) = Some rows ∧
    Forall2 (λ (r : list pyval) (d : dict),
               r !! 0%nat = d !! "timestamp" ∧
               r !! 1%nat = (λ v, PStr (str v)) <$> d !! "detection" ∧
               r !! 2%nat = d !! "alert_type" ∧
               r !! 3%nat = d !! "device_id" ∧
               r !! 4%nat = d !! "sms_sent")
            rows (records resp).
Proof.
  unfold returned. rewrite index_runs.
  destruct (decide (MONGO_AVAILABLE w = true ∧ find_reply rp = None)) as [[Hav Hfind]|Hnot].
  - rewrite events_primary by done. rewrite Hav, Hfind. simpl. intros [= <-] _.
    eexists. split; [done|]. unfold records. simpl.
    apply Forall2_fmap, Forall_Forall2_diag, Forall_true. intros d.
    unfold mongo_row, mongo_event. by repeat split.
  - assert (Hpath : MONGO_AVAILABLE w = false ∨ is_Some (find_reply rp)).
    { destruct (MONGO_AVAILABLE w); [|by left]. right.
      destruct (find_reply rp); [by eexists|]. by destruct Hnot. }
    assert (Hsel : MONGO_AVAILABLE w && bool_decide (find_reply rp = None) = false).
    { destruct Hpath as [->|[msg ->]]; [done|]. by rewrite andb_false_r. }
    rewrite (events_fallback rp w Hpath), Hsel, events_from_csv_runs.
    destruct (csv_file w) as [[|hdr rows0]|].
    + simpl. by intros [= <-].
    + change (read_rows (hdr :: rows0))
        with ((universal_newlines <$> hdr) :: read_rows rows0).
      destruct (mapM csv_event (add_missing_columns <$> take 20 (reverse (read_rows rows0))) w).1
        as [ds|x] eqn:Hm; simpl; rewrite ?Hm; simpl; [|by intros [= <-]].
      intros [= <-] _. eexists. split; [done|]. unfold records. simpl.
      apply mapM_csv_event_ok in Hm. apply Forall2_fmap_l.
      eapply Forall2_impl; [exact Hm|]. intros e d Hd. simpl in Hd.
      apply csv_event_ok in Hd as (_ & H0 & H1 & H2 & H3 & H4).
      unfold compose. rewrite H0, H1, H2, H3, H4, !list_lookup_fmap.
      repeat split. by destruct (e !! 1%nat).
    + simpl. intros [= <-] _. eexists. split; [done|]. constructor.
Qed.

Lemma dashboard_rows_match_api_records_witness :
  ∃ rows,
    returned (index sample_replies legacy_file_world) = Some rows ∧
    length rows = 3%nat.
Proof.
  destruct (dashboard_rows_match_api_records sample_replies legacy_file_world
              (Response (JArray
                 [{[ "timestamp" := PStr "2023-01-02 18:30:00 IST"; "detection" := PStr "True";
                     "alert_type" := PStr "real alert"; "device_id" := PStr "esp-7";
                     "sms_sent" := PStr "Yes" ]};
                  {[ "timestamp" := PStr "2023-01-01 09:00:00 IST"; "detection" := PStr "False";
                     "alert_type" := PStr "false alert"; "device_id" := PStr "esp-3";
                     "sms_sent" := PStr "No" ]};
                  {[ "timestamp" := PStr "2023-01-01 09:00:00 IST"; "detection" := PStr "True";
                     "alert_type" := PStr "real alert"; "device_id" := PStr "unknown";
                     "sms_sent" := PStr "No" ]}]) 200)) as (rows & Hrows & Hall).
  - vm_compute. reflexivity.
  - reflexivity.
  - exists rows. split; [exact Hrows|]. by apply Forall2_length in Hall.
Defined.

(** ** The records of GET /events, path by path *)

Lemma three_fields_in_dom (d : dict) :
  is_Some (d !! "timestamp") → is_Some (d !! "detection") → is_Some (d !! "alert_type") →
  {[ "timestamp"; "detection"; "alert_type" ]} ⊆ dom d.
Proof.
  intros H0 H1 H2 k Hk. apply elem_of_dom.
  apply elem_of_union in Hk as [Hk|Hk]; [apply elem_of_union in Hk as [Hk|Hk]|];
    apply elem_of_singleton in Hk; by subst.
Qed.

Lemma csv_event_strings (e : row) (w : world) (d : dict) :
  (csv_event e w).1 = Ok d →
  d !! "_id" = None ∧
  {[ "timestamp"; "detection"; "alert_type" ]} ⊆ dom d ∧
  map_Forall (λ _ v, ∃ s, v = PStr s) d.
Proof.
  unfold csv_event.
  destruct e as [|c0 [|c1 [|c2 [|c3 [|c4 rest]]]]]; simpl; try discriminate;
    intros Hd; injection Hd as <-; (split; [done|]);
    (split; [apply three_fields_in_dom; by eexists|]);
    repeat (apply map_Forall_insert_2; [by eexists|]); apply map_Forall_empty.
Qed.

(** X17.  The records of a 200 answer of GET /events have a different shape
    on the two paths.  From the primary store every record has exactly the
    six fields timestamp, detection, alert_type, device_id, sms_sent and
    _id, the last one a string.  From the file no record has an _id, every
    record has at least timestamp, detection and alert_type, and every
    field is a string, the detection included. *)
Theorem record_fields_by_path (rp : replies) (w : world) (resp : response) :
  returned (events rp w) = Some resp →
  status_code resp = 200%nat →
  Forall (λ d : dict,
            if MONGO_AVAILABLE w && bool_decide (find_reply rp = None) then
              dom d = {[ "timestamp"; "detection"; "alert_type"; "device_id";
                         "sms_sent"; "_id" ]} ∧
              ∃ s, d !! "_id" = Some (PStr s)
            else
              d !! "_id" = None ∧
              {[ "timestamp"; "detection"; "alert_type" ]} ⊆ dom d ∧
              map_Forall (λ _ v, ∃ s, v = PStr s) d)
         (records resp).
Proof.
  unfold returned.
  destruct (decide (MONGO_AVAILABLE w = true ∧ find_reply rp = None)) as [[Hav Hfind]|Hnot].
  - rewrite events_primary by done. rewrite Hav, Hfind. simpl. intros [= <-] _.
    unfold records. simpl. apply Forall_fmap, Forall_true. intros d.
    unfold mongo_event. simpl. split; [|by eexists].
    rewrite !dom_insert_L, dom_singleton_L. set_solver.
  - assert (Hpath : MONGO_AVAILABLE w = false ∨ is_Some (find_reply rp)).
    { destruct (MONGO_AVAILABLE w); [|by left]. right.
      destruct (find_reply rp); [by eexists|]. by destruct Hnot. }
    assert (Hsel : MONGO_AVAILABLE w && bool_decide (find_reply rp = None) = false).
    { destruct Hpath as [->|[msg ->]]; [done|]. by rewrite andb_false_r. }
    rewrite (events_fallback rp w Hpath), Hsel.
    destruct (events_from_csv w).1 as [ds|x] eqn:Hm; simpl; [|by intros [= <-]].
    intros [= <-] _. unfold records. simpl.
    rewrite events_from_csv_runs in Hm.
    destruct (csv_file w) as [[|hdr rows0]|]; [done| |by injection Hm as <-].
    apply mapM_csv_event_ok in Hm.
    induction Hm as [|e d l ds' Hd _ IH]; constructor; [|done].
    by apply csv_event_strings in Hd.
Qed.

Lemma record_fields_by_path_witness :
  Forall (λ d : dict, ∃ s, d !! "_id" = Some (PStr s))
    (mongo_event <$> take 20 (merge_sort newer_eq (events_collection world_with_history))).
Proof.
  pose proof (record_fields_by_path sample_replies world_with_history
                (Response (JArray (mongo_event <$>
                   take 20 (merge_sort newer_eq (events_collection world_with_history)))) 200)
                eq_refl eq_refl) as H.
  eapply Forall_impl; [exact H|]. intros d Hd. exact (proj2 Hd).
Defined.

(** ** Rows written by the server itself *)



(** ** Device provisioning *)



(** ** From a report to the dashboard *)

Lemma universal_newlines_sms_outcome rp w detection alert_type :
  universal_newlines (sms_outcome rp w detection alert_type) =
    sms_outcome rp w detection alert_type.
Proof.
  unfold sms_outcome.
  destruct (truth detection && eq_str alert_type "real alert"); [|done].
  by destruct (TWILIO_AVAILABLE w && provider_accepts rp).
Qed.



(** ** The two stores side by side *)

(** X21.  When the primary store accepts the insert, the row appended to
    the file and the document added to the collection describe the same
    event: shown by GET /events from either store, timestamp, alert_type,
    device_id and sms_sent are equal, for an alert type and a device
    identifier that are strings without a carriage return.  The two records
    still differ: the one from the file has the detection as text and no
    _id. *)
Theorem both_stores_hold_the_same_event (rp : replies) (w : world)
    (detection : pyval) (alert_type device_id : string) (id : pyval) :
  MONGO_AVAILABLE w = true →
  insert_reply rp = inl id →
  CR ∉ list_ascii_of_string (now_str rp) →
  CR ∉ list_ascii_of_string alert_type →
  CR ∉ list_ascii_of_string device_id →
  let w' := (log_event rp detection (PStr alert_type) (PStr device_id) w).2 in
  ∃ (r : row) (doc from_file : dict),
    csv_file w' = Some (default [] (csv_file w) ++ [r]) ∧
    events_collection w' = events_collection w ++ [doc] ∧
    (csv_event (add_missing_columns (universal_newlines <$> r)) w').1 = Ok from_file ∧
    (∀ k, k ∈ ["timestamp"; "alert_type"; "device_id"; "sms_sent"] →
          from_file !! k = mongo_event doc !! k) ∧
    from_file !! "detection" = Some (PStr (universal_newlines (csv_cell detection))) ∧
    mongo_event doc !! "detection" = Some detection ∧
    from_file !! "_id" = None ∧
    mongo_event doc !! "_id" = Some (PStr (str id)).
Proof.
  intros Hav Hins Hts Hty Hdev. cbv zeta. rewrite log_event_world.
  cbn [snd csv_file events_collection]. rewrite Hav, Hins.
  eexists _, _, _. split; [reflexivity|]. split; [reflexivity|].
  unfold logged_row. cbn [fmap list_fmap]. split; [reflexivity|].
  rewrite universal_newlines_sms_outcome.
  change (csv_cell (PStr alert_type)) with alert_type.
  change (csv_cell (PStr device_id)) with device_id.
  rewrite (universal_newlines_no_cr (now_str rp)), (universal_newlines_no_cr alert_type),
    (universal_newlines_no_cr device_id) by done.
  split; [|by repeat split].
  intros k Hk. unfold mongo_event, logged_doc, event_doc.
  repeat (apply elem_of_cons in Hk as [->|Hk]; [reflexivity|]).
  by apply elem_of_nil in Hk.
Qed.

Lemma both_stores_hold_the_same_event_witness :
  let w' := (log_event sample_replies (PBool true) (PStr "real alert") (PStr "esp-7")
               (fresh_world true true)).2 in
  ∃ (r : row) (doc from_file : dict),
    csv_file w' = Some ([header_row] ++ [r]) ∧
    events_collection w' = [doc] ∧
    from_file !! "sms_sent" = mongo_event doc !! "sms_sent".
Proof.
  destruct (both_stores_hold_the_same_event sample_replies (fresh_world true true)
              (PBool true) "real alert" "esp-7" (POther true "662f0001") eq_refl eq_refl)
    as (r & doc & from_file & Hfile & Hcoll & _ & Hsame & _).
  - apply (bool_decide_unpack _). by vm_compute.
  - apply (bool_decide_unpack _). by vm_compute.
  - apply (bool_decide_unpack _). by vm_compute.
  - exists r, doc, from_file. split; [exact Hfile|]. split; [exact Hcoll|].
    apply Hsame. apply elem_of_cons. right. apply elem_of_cons. right.
    apply elem_of_cons. right. apply elem_of_cons. by left.
Defined.

(** ** The status count and the events shown *)

Lemma count_lines_cons (r : row) (file : list row) :
  count_lines (r :: file) = (S (list_sum (line_breaks <$> r)) + count_lines file)%nat.
Proof. reflexivity. Qed.

Lemma count_lines_length (file : list row) : (length file ≤ count_lines file)%nat.
Proof.
  induction file as [|r file IH]; [done|].
  rewrite count_lines_cons. cbn [length]. lia.
Qed.

Lemma count_lines_zero (file : list row) : count_lines file = 0%nat ↔ file = [].
Proof.
  split; [|by intros ->]. destruct file as [|r file]; [done|].
  rewrite count_lines_cons. lia.
Qed.

Lemma events_shown_fallback (rp : replies) (w : world) (resp : response) :
  MONGO_AVAILABLE w = false ∨ is_Some (find_reply rp) →
  returned (events rp w) = Some resp → status_code resp = 200%nat →
  (events_from_csv w).1 = Ok (records resp).
Proof.
  intros Hpath. unfold returned. rewrite (events_fallback rp w Hpath).
  destruct (events_from_csv w).1 as [ds|x]; simpl; intros [= <-]; done.
Qed.

Lemma events_from_csv_length (w : world) (ds : list dict) :
  (events_from_csv w).1 = Ok ds →
  match csv_file w with
  | Some file => (length ds < count_lines file)%nat
  | None => ds = []
  end.
Proof.
  rewrite events_from_csv_runs.
  destruct (csv_file w) as [[|hdr rows]|]; [done| |by intros [= <-]].
  change (read_rows (hdr :: rows)) with ((universal_newlines <$> hdr) :: read_rows rows).
  intros Hds. apply mapM_csv_event_ok, Forall2_length in Hds.
  rewrite <- Hds, length_fmap, length_take, length_reverse.
  unfold read_rows. rewrite length_fmap, count_lines_cons.
  pose proof (count_lines_length rows). lia.
Qed.

(** X22.  The count of GET /status is never below the number of events
    that GET /events shows from the same store: when the database answers
    both requests or neither, a 200 answer of GET /events has at most
    [records_count] records.  The count is never below -1, and it is -1
    exactly when it is taken from a file that exists without a single
    line. *)
Theorem status_count_bounds (rp : replies) (w : world) :
  ∃ n,
    reported_count rp w = Some (PInt n) ∧
    -1 ≤ n ∧
    (n = -1 ↔ MONGO_AVAILABLE w && bool_decide (count_reply rp = None) = false ∧
              csv_file w = Some []) ∧
    ((find_reply rp = None ↔ count_reply rp = None) →
     ∀ resp, returned (events rp w) = Some resp → status_code resp = 200%nat →
             Z.of_nat (length (records resp)) ≤ n).
Proof.
  rewrite reported_count_eq. eexists. split; [reflexivity|].
  destruct (MONGO_AVAILABLE w && bool_decide (count_reply rp = None)) eqn:Hsel.
  - (* the collection is counted *)
    apply andb_true_iff in Hsel as [Hav Hcount]. apply bool_decide_eq_true in Hcount.
    split; [lia|]. split; [split; [lia|by intros [[=] _]]|].
    intros Hsame resp. unfold returned.
    rewrite events_primary by (try done; by apply Hsame).
    simpl. intros [= <-] _. unfold records. simpl.
    rewrite length_fmap, length_take.
    pose proof (merge_sort_Permutation newer_eq (events_collection w)) as Hperm.
    apply Permutation_length in Hperm. lia.
  - (* the lines of the file are counted *)
    assert (Hshown : (find_reply rp = None ↔ count_reply rp = None) →
              ∀ resp, returned (events rp w) = Some resp → status_code resp = 200%nat →
                      (events_from_csv w).1 = Ok (records resp)).
    { intros Hsame resp. apply events_shown_fallback.
      apply andb_false_iff in Hsel as [Hav|Hcount]; [by left|right].
      apply bool_decide_eq_false in Hcount.
      destruct (find_reply rp); [by eexists|]. destruct Hcount. by apply Hsame. }
    destruct (csv_file w) as [file|] eqn:Hfile.
    + pose proof (count_lines_zero file) as Hzero.
      split; [lia|]. split.
      * split.
        -- intros Hn. split; [done|]. f_equal. apply Hzero. lia.
        -- intros [_ [= ->]]. done.
      * intros Hsame resp Hret Hok.
        pose proof (events_from_csv_length w _ (Hshown Hsame resp Hret Hok)) as Hlen.
        rewrite Hfile in Hlen. lia.
    + split; [lia|]. split; [split; [lia|by intros [_ [=]]]|].
      intros Hsame resp Hret Hok.
      pose proof (events_from_csv_length w _ (Hshown Hsame resp Hret Hok)) as Hlen.
      rewrite Hfile in Hlen. rewrite Hlen. simpl. lia.
Qed.

Lemma status_count_bounds_witness :
  ∃ n, reported_count sample_replies legacy_file_world = Some (PInt n) ∧ 3 ≤ n.
Proof.
  destruct (status_count_bounds sample_replies legacy_file_world)
    as (n & Hn & _ & _ & Hshown).
  exists n. split; [exact Hn|].
  apply (Hshown (conj (λ _, eq_refl) (λ _, eq_refl))
           (Response (JArray (default [] (returned (events_from_csv legacy_file_world)))) 200)).
  - vm_compute. reflexivity.
  - reflexivity.
Defined.
